(** * ASX Share Monitor: a shallow embedding of [ASX_Share_Monitor.py]

    The development follows the Python source top-down:
    - [PyStr]: the [str] methods the program calls ([strip], [upper],
      [split], [join], [in]) and iteration over the lines of a text file;
    - [Store]: the two persisted files and [load_stocks], [save_stocks],
      [load_settings], [save_settings];
    - [Quote]: the metric computation of [_run_fetch] over an abstract
      binary64 interface, with Python scalars told apart from numpy scalars;
    - [App]: the state of [TabbedStockMonitor] and its handlers
      ([add_stock], [remove_stock], [update_main_monitor],
      [_treeview_sort_column], [on_main_tree_header_click], ...);
    - [Binary64Text] and [Samples]: binary64 itself, with its decimal
      conversions, and the sample data the statements are run on.
    The properties follow, module by module.

    Tickers, file contents and settings are text over the 7-bit ASCII
    alphabet: the values of [ascii] stand for code points, and [strip] and
    [upper] are those of Python on the strings for which [isascii] holds;
    what Python does with other characters (the white space and the case
    mappings of Unicode) is outside the model, and the statements that
    depend on it assume [isascii]. The cells of the table hold the arrows
    and marks of the display in UTF-8. *)

From Stdlib Require Import PrimFloat FloatOps SpecFloat ZArith DecimalString Ascii.
From stdpp Require Import gmap strings list fin_maps sorting.

(** ** Python exceptions and results *)

Inductive exn : Set :=
  | ValueError          (* raised by the program itself and by tuple unpacking *)
  | ZeroDivisionError   (* [/] on Python numbers with a zero divisor *)
  | IndexError          (* a position outside a series *)
  | ProviderError.      (* anything the market-data client raises *)

Inductive result (A : Type) : Type :=
  | Ok (a : A)
  | Raise (e : exn).
Arguments Ok {A} a.
Arguments Raise {A} e.

(** Sequencing stops at the first exception, as Python does. *)
Global Instance result_ret : MRet result := λ A a, Ok a.
Global Instance result_bind : MBind result := λ A B k r,
  match r with
  | Ok a => k a
  | Raise e => Raise e
  end.

(** ** [str] *)

Module PyStr.

Definition LF : ascii := "010"%char.
Definition CR : ascii := "013"%char.

(** [s.isascii()]: every character is a code point below 128. *)
Fixpoint isascii (s : string) : bool :=
  match s with
  | "" => true
  | String c s' => (N_of_ascii c <? 128)%N && isascii s'
  end.

(** [str.isspace] on one ASCII character: TAB, LF, VT, FF, CR, the four
    separators FS, GS, RS, US, and the space. *)
Definition isspace (c : ascii) : bool :=
  let n := N_of_ascii c in
  ((9 <=? n) && (n <=? 13) || (28 <=? n) && (n <=? 32))%N.

Definition upper_char (c : ascii) : ascii :=
  let n := N_of_ascii c in
  if ((97 <=? n) && (n <=? 122))%N then ascii_of_N (n - 32) else c.

(** [s.upper()] for a string [s] with [isascii s]: the letters a to z
    are the only ones with an upper case. *)
Fixpoint upper (s : string) : string :=
  match s with
  | "" => ""
  | String c s' => String (upper_char c) (upper s')
  end.

Definition lower_char (c : ascii) : ascii :=
  let n := N_of_ascii c in
  if ((65 <=? n) && (n <=? 90))%N then ascii_of_N (n + 32) else c.

(** [s.lower()] for a string [s] with [isascii s] *)
Fixpoint lower (s : string) : string :=
  match s with
  | "" => ""
  | String c s' => String (lower_char c) (lower s')
  end.

(** [s.lstrip(chars)], [s.rstrip(chars)], [s.strip(chars)]; the set of
    characters to remove is a predicate. *)
Fixpoint lstrip_by (p : ascii → bool) (s : string) : string :=
  match s with
  | "" => ""
  | String c s' => if p c then lstrip_by p s' else s
  end.

Fixpoint rstrip_by (p : ascii → bool) (s : string) : string :=
  match s with
  | "" => ""
  | String c s' =>
      match rstrip_by p s' with
      | "" => if p c then "" else String c ""
      | r => String c r
      end
  end.

Definition strip_by (p : ascii → bool) (s : string) : string :=
  lstrip_by p (rstrip_by p s).

(** [s.strip()] for a string [s] with [isascii s]: the white space of
    [isspace] is the only one there is. *)
Definition strip : string → string := strip_by isspace.

(** [s.strip('.')] and the like *)
Definition strip_char (c : ascii) : string → string :=
  strip_by (λ a, bool_decide (a = c)).

(** [c in s] for a one-character [c] *)
Fixpoint contains (c : ascii) (s : string) : bool :=
  match s with
  | "" => false
  | String a s' => bool_decide (a = c) || contains c s'
  end.


(** The truth value of a string: non-empty. *)
Definition truthy (s : string) : bool :=
  match s with "" => false | _ => true end.

(** [s.split(c)] for a one-character separator. *)
Fixpoint split (c : ascii) (s : string) : list string :=
  match s with
  | "" => [""]
  | String a s' =>
      if bool_decide (a = c) then "" :: split c s'
      else match split c s' with
           | h :: t => String a h :: t
           | [] => [String a ""]
           end
  end.

(** [s.replace(old, new)] for a non-empty [old]: [skip] counts the
    characters of an occurrence of [old] still to be passed over. *)
Fixpoint replace_from (old new : string) (skip : nat) (s : string) : string :=
  match s with
  | "" => ""
  | String c s' =>
      match skip with
      | S k => replace_from old new k s'
      | O =>
          if String.prefix old s
          then new +:+ replace_from old new (String.length old - 1) s'
          else String c (replace_from old new 0 s')
      end
  end.
Definition replace (old new s : string) : string := replace_from old new 0 s.

(** [sep.join(l)] *)
Fixpoint join (sep : string) (l : list string) : string :=
  match l with
  | [] => ""
  | [s] => s
  | s :: l' => s +:+ sep +:+ join sep l'
  end.

(** [for line in f]: the lines of a text, each with its terminating
    line feed when it has one. *)
Fixpoint lines (s : string) : list string :=
  match s with
  | "" => []
  | String a s' =>
      if bool_decide (a = LF) then String LF "" :: lines s'
      else match lines s' with
           | [] => [String a ""]
           | h :: t => String a h :: t
           end
  end.

End PyStr.

(** ** Text files *)

Module TextIO.
Import PyStr.

Inductive platform : Set := Posix | Windows.

(** Reading with [open(name, 'r')]: universal newlines, so CR LF and a
    lone CR both arrive as LF. *)
Fixpoint read_text (raw : string) : string :=
  match raw with
  | "" => ""
  | String c raw' =>
      if bool_decide (c = CR) then
        String LF match raw' with
                  | String d raw'' =>
                      if bool_decide (d = LF) then read_text raw''
                      else read_text raw'
                  | "" => ""
                  end
      else String c (read_text raw')
  end.

(** Writing with [open(name, 'w')]: LF becomes [os.linesep]. *)
Fixpoint write_text (os : platform) (s : string) : string :=
  match s with
  | "" => ""
  | String c s' =>
      if bool_decide (c = LF) then
        match os with
        | Posix => String LF (write_text os s')
        | Windows => String CR (String LF (write_text os s'))
        end
      else String c (write_text os s')
  end.

End TextIO.

(** ** Configuration and data persistence *)

Module Store.
Import PyStr TextIO.

(** [TIME_RANGES]: display text to (provider period, provider interval). *)
Definition TIME_RANGES : list (string * (string * string)) :=
  [ ("6 Months", ("6mo", "1wk"));
    ("30 Days", ("30d", "1d"));
    ("7 Days", ("7d", "1h"));
    ("24 Hrs", ("1d", "15m"));
    ("6 Hrs", ("1d", "5m"));
    ("10 Mins", ("1d", "1m")) ].
Definition DEFAULT_TIME_RANGE : string := "30 Days".

Definition TIMEZONES : list string :=
  ["Australia/Sydney"; "Australia/Brisbane"; "Australia/Perth"].
Definition DEFAULT_TIMEZONE : string := "Australia/Sydney".

(** [key in TIME_RANGES] *)
Definition in_TIME_RANGES (key : string) : bool :=
  bool_decide (key ∈ TIME_RANGES.*1).

(** [TIME_RANGES.get(key, TIME_RANGES[DEFAULT_TIME_RANGE])] *)
Definition TIME_RANGES_get (key : string) : string * string :=
  let table : gmap string (string * string) := list_to_map TIME_RANGES in
  default (default ("", "") (table !! DEFAULT_TIME_RANGE)) (table !! key).

(** What the program sees of the operating system: the line separator
    and the contents of [STOCK_FILE] ('my_stocks.txt') and
    [TIMEZONE_FILE] ('timezone.txt'), [None] when the file does not
    exist. *)
Record files : Type := Files {
  os : platform;
  STOCK_FILE : option string;
  TIMEZONE_FILE : option string
}.

Definition write_STOCK_FILE (text : string) (fs : files) : files :=
  {| os := os fs;
     STOCK_FILE := Some (write_text (os fs) text);
     TIMEZONE_FILE := TIMEZONE_FILE fs |}.

Definition write_TIMEZONE_FILE (text : string) (fs : files) : files :=
  {| os := os fs;
     STOCK_FILE := STOCK_FILE fs;
     TIMEZONE_FILE := Some (write_text (os fs) text) |}.

(** [sorted(list(set(xs)))] *)
Definition sorted_set (xs : list string) : list string :=
  merge_sort (≤)%string (elements (list_to_set xs : gset string)).

(** [x.strip().upper() for x in xs if x.strip()], the comprehension
    shared by [load_stocks] and [save_stocks]. *)
Definition normalized (xs : list string) : list string :=
  (λ x, upper (strip x)) <$> filter (λ x, truthy (strip x) = true) xs.

(** What an element of [normalized xs] looks like: stripped, in upper
    case, not empty. *)
Definition normal (u : string) : Prop :=
  strip u = u ∧ upper u = u ∧ u ≠ "".

(** A string that holds no line break, so that it fits on a line of a
    file. *)
Definition one_line (s : string) : bool :=
  negb (contains LF s) && negb (contains CR s).

Definition load_stocks (fs : files) : list string :=
  match STOCK_FILE fs with
  | Some raw => sorted_set (normalized (lines (read_text raw)))
  | None => ["BHP.AX"; "PL8.AX"]
  end.

Definition save_stocks (tickers : list string) (fs : files) : files :=
  let unique_tickers := sorted_set (normalized tickers) in
  write_STOCK_FILE (join (String LF "") unique_tickers) fs.

Record settings : Type := Settings {
  time_range : string;
  timezone : string
}.

(** Settings whose two values are enumerated ones. *)
Definition enumerated (s : settings) : Prop :=
  time_range s ∈ TIME_RANGES.*1 ∧ timezone s ∈ TIMEZONES.

(** The body of the loop [for key, value in lines]: unpacking an item
    that is not a pair raises [ValueError]. *)
Fixpoint read_settings_lines (items : list (list string)) (s : settings)
  : result settings :=
  match items with
  | [] => Ok s
  | [key; value] :: items' =>
      read_settings_lines items'
        (if bool_decide (key = "time_range") && in_TIME_RANGES value
         then {| time_range := value; timezone := timezone s |}
         else if bool_decide (key = "timezone")
                 && bool_decide (value ∈ TIMEZONES)
         then {| time_range := time_range s; timezone := value |}
         else s)
  | _ :: _ => Raise ValueError
  end.

Definition load_settings (fs : files) : result settings :=
  let settings :=
    {| time_range := DEFAULT_TIME_RANGE; timezone := DEFAULT_TIMEZONE |} in
  match TIMEZONE_FILE fs with
  | Some raw =>
      let lines :=
        (λ line, split "=" (strip line))
          <$> filter (λ line, contains "=" line = true) (lines (read_text raw)) in
      read_settings_lines lines settings
  | None => Ok settings
  end.

Definition save_settings (s : settings) (fs : files) : files :=
  write_TIMEZONE_FILE
    ("time_range=" +:+ time_range s +:+ String LF ""
     +:+ "timezone=" +:+ timezone s +:+ String LF "") fs.

End Store.

(** ** Quotes and derived metrics *)

Module Quote.

(** The arithmetic of the prices: IEEE 754 binary64 in the program. The
    operations are those [_run_fetch] and the views apply. *)
Class Float64 (F : Type) : Type := {
  f_zero : F;
  f_hundred : F;
  f_sub : F → F → F;
  f_mul : F → F → F;
  f_div : F → F → F;
  f_eqb : F → F → bool;
  f_ltb : F → F → bool;
  f_leb : F → F → bool
}.

Section scalars.
Context {F : Type} `{Float64 F}.

(** A number is a Python [int] or [float] (the fields of
    [ticker_obj.info], the literals [0.0] and [100]) or a
    [numpy.float64] (the elements of a price history). They differ in
    division by zero: Python raises, numpy returns inf or nan. *)
Inductive scalar : Type :=
  | PyNum (x : F)
  | NpFloat (x : F).

Definition payload (a : scalar) : F :=
  match a with PyNum x | NpFloat x => x end.

Definition is_numpy (a : scalar) : bool :=
  match a with PyNum _ => false | NpFloat _ => true end.

(** The type of the result of a binary operation: numpy's as soon as
    one operand is numpy's. *)
Definition coerce (a b : scalar) (x : F) : scalar :=
  if is_numpy a || is_numpy b then NpFloat x else PyNum x.

Definition sub (a b : scalar) : scalar :=
  coerce a b (f_sub (payload a) (payload b)).

Definition mul (a b : scalar) : scalar :=
  coerce a b (f_mul (payload a) (payload b)).

Definition div (a b : scalar) : result scalar :=
  if negb (is_numpy a || is_numpy b) && f_eqb (payload b) f_zero
  then Raise ZeroDivisionError
  else Ok (coerce a b (f_div (payload a) (payload b))).

(** [a > 0] and [a >= 0] *)
Definition gt0 (a : scalar) : bool := f_ltb f_zero (payload a).
Definition ge0 (a : scalar) : bool := f_leb f_zero (payload a).

(** What the provider returns for one symbol: the two scalar fields of
    [info] ([None] when absent), the closing prices at the selected
    resolution and those of the 1-day/1-minute query. *)
Record response : Type := Response {
  regularMarketPrice : option F;
  regularMarketOpen : option F;
  hist : list F;
  hourly_hist : list F
}.

(** The entry of [new_data] for a symbol whose fetch succeeded. *)
Record quote : Type := MkQuote {
  price : scalar;
  open_price : scalar;
  change_abs : scalar;
  daily_change_pct : scalar;
  hourly_change_abs : scalar;
  hourly_change_pct : scalar;
  color : string;
  history : list F;
  range_text : string
}.

(** An entry of the snapshot table; [Failed] is
    [{"price": None, "error": True}]. *)
Inductive snapshot : Type :=
  | Fetched (q : quote)
  | Failed.

(** [series.iloc[-k]] for [k > 0] *)
Definition iloc_neg (series : list F) (k : nat) : result F :=
  if decide (k ≤ length series)
  then match series !! (length series - k) with
       | Some x => Ok x
       | None => Raise IndexError
       end
  else Raise IndexError.

(** [series.iloc[0]] *)
Definition iloc_0 (series : list F) : result F :=
  match series with
  | x :: _ => Ok x
  | [] => Raise IndexError
  end.

(** [price] and [open_price] after the fallback on the history. *)
Definition scalar_prices (r : response) : result (scalar * scalar) :=
  match regularMarketPrice r, regularMarketOpen r with
  | Some p, Some o => Ok (PyNum p, PyNum o)
  | _, _ =>
      if bool_decide (hist r ≠ []) then
        p ← iloc_neg (hist r) 1;
        o ← iloc_0 (hist r);
        Ok (NpFloat p, NpFloat o)
      else Raise ValueError
  end.

(** [hourly_change_abs] and [hourly_change_pct]. *)
Definition hourly_change (r : response) (price : scalar) : result (scalar * scalar) :=
  if bool_decide (60 ≤ length (hourly_hist r)) && gt0 price then
    x ← iloc_neg (hourly_hist r) 60;
    let price_one_hour_ago := NpFloat x in
    let hourly_change_abs := sub price price_one_hour_ago in
    ratio ← div hourly_change_abs price_one_hour_ago;
    Ok (hourly_change_abs, mul ratio (PyNum f_hundred))
  else Ok (PyNum f_zero, PyNum f_zero).

(** The body of the [try] of [_run_fetch], from the provider's answer
    on; [range] is the text of the range selector. *)
Definition compute_quote (r : response) (range : string) : result quote :=
  '(price, open_price) ← scalar_prices r;
  let daily_change_abs := sub price open_price in
  ratio ← div daily_change_abs open_price;
  let daily_change_pct := mul ratio (PyNum f_hundred) in
  '(hourly_change_abs, hourly_change_pct) ← hourly_change r price;
  let change_color := if ge0 daily_change_abs then "green" else "red" in
  Ok {| price := price;
        open_price := open_price;
        change_abs := daily_change_abs;
        daily_change_pct := daily_change_pct;
        hourly_change_abs := hourly_change_abs;
        hourly_change_pct := hourly_change_pct;
        color := change_color;
        history := hist r;
        range_text := range |}.

(** [try: ... except Exception: new_data[ticker] = {...error...}] *)
Definition snapshot_of (r : result quote) : snapshot :=
  match r with
  | Ok q => Fetched q
  | Raise _ => Failed
  end.

(** The market-data provider: a state (the remote service, the network)
    and the conversation about one symbol, which either raises or
    yields a [response]. *)
Context {provider : Type}.
Context (ask : provider → string → string * string → string * string
               → provider * result response).

(** One iteration of the loop of [_run_fetch]. *)
Definition fetch_one (graph hourly : string * string) (range : string)
    (acc : provider * gmap string snapshot) (ticker : string)
  : provider * gmap string snapshot :=
  let '(pv, answer) := ask acc.1 ticker graph hourly in
  (pv, <[ticker := snapshot_of (answer ≫= λ r, compute_quote r range)]> acc.2).

(** [_run_fetch]: [tickers] is [self.tickers], [range] the text of the
    range selector; the result is [new_data], with the provider as the
    batch leaves it. *)
Definition _run_fetch (tickers : list string)
    (graph_period graph_interval hourly_hist_period hourly_hist_interval : string)
    (range : string) (pv : provider)
  : provider * gmap string snapshot :=
  foldl (fetch_one (graph_period, graph_interval)
                   (hourly_hist_period, hourly_hist_interval) range)
        (pv, ∅) tickers.

End scalars.

Arguments scalar F : clear implicits.
Arguments response F : clear implicits.
Arguments quote F : clear implicits.
Arguments snapshot F : clear implicits.

(** Binary64 itself. *)
Global Instance float_Float64 : Float64 float := {|
  f_zero := 0%float;
  f_hundred := 100%float;
  f_sub := PrimFloat.sub;
  f_mul := PrimFloat.mul;
  f_div := PrimFloat.div;
  f_eqb := PrimFloat.eqb;
  f_ltb := PrimFloat.ltb;
  f_leb := PrimFloat.leb
|}.

End Quote.

(** ** The application *)

Module App.
Import PyStr Store Quote.

(** Conversions between binary64 and text: [format(x, '+.2f')] and
    [format(x, ',.2f')] as the f-strings of the views use them ([plus] is
    the [+] option, [comma] the [,] option), and [float(s)], [None] when
    it raises [ValueError]. *)
Class FloatText (F : Type) : Type := {
  format_2f : bool → bool → F → string;
  float_of_string : string → option F
}.

(** A line of the aggregate table: its item identifier, its cells in the
    order of [columns], its tag. *)
Record row : Type := Row {
  iid : string;
  values : list string;
  tags : string
}.

Definition columns : list string :=
  ["visible"; "ticker"; "price"; "open"; "daily_change_pct";
   "daily_change_abs"; "hourly_change_pct"; "hourly_change_abs"].

(** [col_map] of [on_main_tree_header_click] *)
Definition col_map : list (string * string) :=
  [("#1", "visible"); ("#2", "ticker"); ("#3", "price"); ("#4", "open");
   ("#5", "daily_change_pct"); ("#6", "daily_change_abs");
   ("#7", "hourly_change_pct"); ("#8", "hourly_change_abs")].

Definition col_map_get (column_id : string) : option string :=
  (list_to_map col_map : gmap string string) !! column_id.

(** [tree.set(item, col)]: the cell of a row in a column. *)
Definition tree_set (item : row) (col : string) : string :=
  default "" (i ← list_find (λ c, c = col) columns; values item !! i.1).

Section app.
Context {F : Type} `{Float64 F} `{FloatText F}.

(** The attributes of [TabbedStockMonitor] that the handlers read and
    write, the rows of [main_tree] in display order, the headings whose
    command [_treeview_sort_column] has rebound, the text of the range
    selector, the batches handed to the executor, and the files. *)
Record app : Type := MkApp {
  tickers : list string;
  tab_widgets : gset string;
  all_stock_data : gmap string (snapshot F);
  line_visibility : gmap string bool;
  sort_column : string;
  sort_reverse : bool;
  main_tree : list row;
  heading_rebound : gset string;
  time_range_combo : string;
  submitted : list (string * string);
  disk : files
}.

(** The keys [sort_key] returns: floats or strings. *)
Inductive key : Type :=
  | KNum (x : F)
  | KStr (s : string).

(** [<] on keys; a column never mixes the two kinds. *)
Definition key_lt (a b : key) : bool :=
  match a, b with
  | KNum x, KNum y => f_ltb x y
  | KStr x, KStr y => String.ltb x y
  | _, _ => false
  end.

(** [list.sort(key=..., reverse=...)]: a stable sort that compares with
    [<] only; with [reverse] the list is reversed, sorted and reversed
    again, so equal keys keep their order. Where [<] orders the keys
    (strings, or floats none of which is NaN) the result of a stable sort
    is unique, and it is the one computed here by insertion; on keys that
    hold a NaN the order Python returns depends on the runs its merge
    sort finds and is outside the model. *)
Fixpoint sort_insert {A} (k : A → key) (x : A) (l : list A) : list A :=
  match l with
  | [] => [x]
  | y :: l' => if key_lt (k y) (k x) then y :: sort_insert k x l'
               else x :: l
  end.

Definition stable_sort {A} (k : A → key) (l : list A) : list A :=
  foldr (sort_insert k) [] l.

Definition list_sort {A} (k : A → key) (reverse : bool) (l : list A) : list A :=
  if reverse then list.reverse (stable_sort k (list.reverse l)) else stable_sort k l.

Definition up_arrow : string := " ↑".
Definition down_arrow : string := " ↓".

(** The nested function [sort_key] of [_treeview_sort_column]; [value]
    is the first component of the item. *)
Definition sort_key (col : string) (value : string) : key :=
  if bool_decide (col ∈ ["price"; "open"; "daily_change_abs"; "hourly_change_abs"])
  then KNum (default f_zero (float_of_string
         (strip (replace down_arrow "" (replace up_arrow ""
           (replace "+" "" (replace "$" "" value)))))))
  else if bool_decide (col ∈ ["daily_change_pct"; "hourly_change_pct"])
  then KNum (default f_zero (float_of_string
         (strip (replace down_arrow "" (replace up_arrow ""
           (replace "+" "" (replace "%" "" value)))))))
  else KStr (lower value).

Definition _treeview_sort_column (col : string) (reverse : bool) (st : app) : app :=
  let data_list := (λ item, (tree_set item col, item)) <$> main_tree st in
  let data_list := list_sort (λ item, sort_key col item.1) reverse data_list in
  {| tickers := tickers st;
     tab_widgets := tab_widgets st;
     all_stock_data := all_stock_data st;
     line_visibility := line_visibility st;
     sort_column := col;
     sort_reverse := negb reverse;
     main_tree := data_list.*2;
     heading_rebound := {[col]} ∪ heading_rebound st;
     time_range_combo := time_range_combo st;
     submitted := submitted st;
     disk := disk st |}.

(** The command of a heading: the one [create_main_monitor_tab] bound
    until [_treeview_sort_column] has rebound it. *)
Definition heading_command (col : string) (st : app) : app :=
  if decide (col ∈ heading_rebound st)
  then _treeview_sort_column col (sort_reverse st) st
  else _treeview_sort_column col false st.

Definition _format_change_data (pct_value abs_value : scalar F) : string * string :=
  let arrow := if ge0 pct_value then up_arrow else down_arrow in
  (format_2f true false (payload pct_value) +:+ "%" +:+ arrow,
   "$" +:+ format_2f true false (payload abs_value) +:+ arrow).

(** [data.get(field, 0)] on a snapshot that is not flagged. *)
Definition get_or_0 (field : quote F → scalar F) (data : option (snapshot F))
  : scalar F :=
  match data with
  | Some (Fetched q) => field q
  | _ => PyNum f_zero
  end.

(** [data.get("error")] *)
Definition get_error (data : option (snapshot F)) : bool :=
  match data with Some Failed => true | _ => false end.

(** The tag of a row. *)
Definition row_tag (data : option (snapshot F)) : string :=
  if get_error data then "error"
  else let change_abs := get_or_0 change_abs data in
       if ge0 change_abs then "gain" else "loss".

(** The body of the loop of [update_main_monitor] over
    [sorted_tickers]. *)
Definition make_row (snapshots : gmap string (snapshot F))
    (visibility : gmap string bool) (ticker : string) : row :=
  let data := snapshots !! ticker in
  let is_visible := default true (visibility !! ticker) in
  let visible_symbol := if is_visible then "✔" else "✘" in
  if get_error data then
    Row ticker
        [visible_symbol; ticker; "N/A"; "N/A"; "N/A"; "N/A"; "N/A"; "N/A"]
        (row_tag data)
  else
    let change_abs := get_or_0 change_abs data in
    let hourly_change_abs := get_or_0 hourly_change_abs data in
    let daily := _format_change_data (get_or_0 daily_change_pct data) change_abs in
    let hourly :=
      _format_change_data (get_or_0 hourly_change_pct data) hourly_change_abs in
    Row ticker
        [visible_symbol; ticker;
         "$" +:+ format_2f false true (payload (get_or_0 price data));
         "$" +:+ format_2f false true (payload (get_or_0 open_price data));
         daily.1; daily.2; hourly.1; hourly.2]
        (row_tag data).

(** The rows [update_main_monitor] inserts, in the order of
    [sorted_tickers], given the visibility map. *)
Definition fresh_rows (snapshots : gmap string (snapshot F))
    (visibility : gmap string bool) : list row :=
  let sorted_tickers := merge_sort (≤)%string (elements (dom snapshots)) in
  make_row snapshots visibility <$> sorted_tickers.

(** [update_main_monitor], the table part. The first loop gives every
    symbol of the snapshot table that has no visibility entry the entry
    [True]: the union keeps the entries there are. *)
Definition update_main_monitor (st : app) : app :=
  let visibility := line_visibility st ∪ ((λ _, true) <$> all_stock_data st) in
  _treeview_sort_column (sort_column st) (sort_reverse st)
    {| tickers := tickers st;
       tab_widgets := tab_widgets st;
       all_stock_data := all_stock_data st;
       line_visibility := visibility;
       sort_column := sort_column st;
       sort_reverse := sort_reverse st;
       main_tree := fresh_rows (all_stock_data st) visibility;
       heading_rebound := heading_rebound st;
       time_range_combo := time_range_combo st;
       submitted := submitted st;
       disk := disk st |}.

(** [region] and [column_id] are what [identify_region] and
    [identify_column] return for the click. *)
Definition on_main_tree_header_click (region column_id : string) (st : app) : app :=
  if bool_decide (region ≠ "heading") then st
  else match col_map_get column_id with
       | Some col_name =>
           let reverse_flag :=
             if bool_decide (col_name = sort_column st)
             then negb (sort_reverse st) else false in
           update_main_monitor
             {| tickers := tickers st;
                tab_widgets := tab_widgets st;
                all_stock_data := all_stock_data st;
                line_visibility := line_visibility st;
                sort_column := col_name;
                sort_reverse := reverse_flag;
                main_tree := main_tree st;
                heading_rebound := heading_rebound st;
                time_range_combo := time_range_combo st;
                submitted := submitted st;
                disk := disk st |}
       | None => st
       end.

(** [item_id] and [col_id] are what [identify_row] and
    [identify_column] return for the click. *)
Definition toggle_chart_visibility (item_id col_id : string) (st : app) : app :=
  if negb (truthy item_id) then st
  else if bool_decide (col_id ≠ "#1") then st
  else
    let ticker := item_id in
    let current_state := default true (line_visibility st !! ticker) in
    update_main_monitor
      {| tickers := tickers st;
         tab_widgets := tab_widgets st;
         all_stock_data := all_stock_data st;
         line_visibility := <[ticker := negb current_state]> (line_visibility st);
         sort_column := sort_column st;
         sort_reverse := sort_reverse st;
         main_tree := main_tree st;
         heading_rebound := heading_rebound st;
         time_range_combo := time_range_combo st;
         submitted := submitted st;
         disk := disk st |}.

(** [fetch_data]: the batch itself runs on a worker and comes back
    through [_handle_fetch_result]; here it is only handed over. *)
Definition fetch_data (st : app) : app :=
  if bool_decide (tickers st = []) then update_main_monitor st
  else
    {| tickers := tickers st;
       tab_widgets := tab_widgets st;
       all_stock_data := all_stock_data st;
       line_visibility := line_visibility st;
       sort_column := sort_column st;
       sort_reverse := sort_reverse st;
       main_tree := main_tree st;
       heading_rebound := heading_rebound st;
       time_range_combo := time_range_combo st;
       submitted := submitted st ++ [TIME_RANGES_get (time_range_combo st)];
       disk := disk st |}.

(** [update_tabs], as far as the table goes: the detail tabs are
    widgets only. *)
Definition update_tabs (new_data : gmap string (snapshot F)) (st : app) : app :=
  update_main_monitor st.

(** [future] is what [future.result()] returns or raises. *)
Definition _handle_fetch_result (future : result (gmap string (snapshot F)))
    (st : app) : app :=
  match future with
  | Ok new_data =>
      update_tabs new_data
        {| tickers := tickers st;
           tab_widgets := tab_widgets st;
           all_stock_data := new_data ∪ all_stock_data st;
           line_visibility := line_visibility st;
           sort_column := sort_column st;
           sort_reverse := sort_reverse st;
           main_tree := main_tree st;
           heading_rebound := heading_rebound st;
           time_range_combo := time_range_combo st;
           submitted := submitted st;
           disk := disk st |}
  | Raise _ => st
  end.

(** The ticker [add_stock] derives from the text of the entry. *)
Definition entered_ticker (entry : string) : string :=
  let ticker := upper (strip entry) in
  let ticker :=
    if truthy ticker && negb (contains "." ticker) then ticker +:+ ".AX"
    else ticker in
  strip_char "." ticker.

(** [add_stock]; [entry] is [self.ticker_entry.get()]. *)
Definition add_stock (entry : string) (st : app) : app :=
  let ticker := entered_ticker entry in
  if truthy ticker && bool_decide (ticker ∉ tickers st) then
    let tickers' := tickers st ++ [ticker] in
    fetch_data
      {| tickers := tickers';
         tab_widgets := {[ticker]} ∪ tab_widgets st;
         all_stock_data := all_stock_data st;
         line_visibility := line_visibility st;
         sort_column := sort_column st;
         sort_reverse := sort_reverse st;
         main_tree := main_tree st;
         heading_rebound := heading_rebound st;
         time_range_combo := time_range_combo st;
         submitted := submitted st;
         disk := save_stocks tickers' (disk st) |}
  else st.

(** [list.remove]: the first occurrence goes. *)
Fixpoint list_remove (x : string) (l : list string) : list string :=
  match l with
  | [] => []
  | y :: l' => if decide (y = x) then l' else y :: list_remove x l'
  end.

(** [remove_stock]; [selected] is the text of the selected tab, [None]
    when the notebook raises [TclError]. *)
Definition remove_stock (selected : option string) (st : app) : app :=
  match selected with
  | None => st
  | Some ticker_to_remove =>
      if bool_decide (ticker_to_remove = "Main Monitor") then st
      else if bool_decide (ticker_to_remove ∈ tickers st) then
        let tickers' := list_remove ticker_to_remove (tickers st) in
        update_main_monitor
          {| tickers := tickers';
             tab_widgets := tab_widgets st ∖ {[ticker_to_remove]};
             all_stock_data := all_stock_data st;
             line_visibility := delete ticker_to_remove (line_visibility st);
             sort_column := sort_column st;
             sort_reverse := sort_reverse st;
             main_tree := main_tree st;
             heading_rebound := heading_rebound st;
             time_range_combo := time_range_combo st;
             submitted := submitted st;
             disk := save_stocks tickers' (disk st) |}
      else st
  end.

(** The attributes as [__init__] sets them: the settings and the
    tickers come from the files, one detail tab per ticker. The range
    selector is created empty and gets its text, from the settings, in
    [_check_load_complete]; the window is withdrawn until then, so no
    action of the user reads the selector earlier, and the state holds it
    from the start. *)
Definition init (fs : files) : result app :=
  settings ← load_settings fs;
  let tickers := load_stocks fs in
  Ok {| tickers := tickers;
        tab_widgets := list_to_set tickers;
        all_stock_data := ∅;
        line_visibility := ∅;
        sort_column := "ticker";
        sort_reverse := false;
        main_tree := [];
        heading_rebound := ∅;
        time_range_combo := time_range settings;
        submitted := [];
        disk := fs |}.

(** What happens to a running application: the callbacks the event
    loop invokes, with what the widgets and the futures hand them. *)
Inductive event : Type :=
  | AddStock (entry : string)
  | RemoveStock (selected : option string)
  | HeaderClick (region column_id : string)
  | HeadingCommand (col : string)
  | ToggleVisibility (item_id col_id : string)
  | FetchData
  | FetchResult (future : result (gmap string (snapshot F)))
  | Redraw.

Definition handle (st : app) (ev : event) : app :=
  match ev with
  | AddStock entry => add_stock entry st
  | RemoveStock selected => remove_stock selected st
  | HeaderClick region column_id => on_main_tree_header_click region column_id st
  | HeadingCommand col => heading_command col st
  | ToggleVisibility item_id col_id => toggle_chart_visibility item_id col_id st
  | FetchData => fetch_data st
  | FetchResult future => _handle_fetch_result future st
  | Redraw => update_main_monitor st
  end.

(** The application after a sequence of events, until it is closed. *)
Definition run (events : list event) (st : app) : app :=
  foldl handle st events.

(** The table shows one row per symbol of the snapshot table. *)
Definition displayed (st : app) : Prop :=
  ∀ ticker, ticker ∈ iid <$> main_tree st ↔ ticker ∈ dom (all_stock_data st).

End app.

Arguments app F : clear implicits.
Arguments key F : clear implicits.
Arguments event F : clear implicits.

End App.

(** ** Binary64 and its text

    The instance at which the model runs: Rocq's primitive floats for the
    arithmetic, and the decimal conversions computed from the exact value
    of a float. *)

Module Binary64Text.
Import PyStr App.
Local Open Scope Z_scope.

(** The decimal digits of a natural number. *)
Definition digits (n : Z) : string :=
  NilZero.string_of_uint (N.to_uint (Z.to_N n)).

(** The thousands separators of the [,] option. *)
Fixpoint grouped (s : string) : string :=
  match s with
  | "" => ""
  | String c s' =>
      let n := Z.of_nat (String.length s') in
      String c (if (0 <? n) && (n mod 3 =? 0) then String "," (grouped s')
                else grouped s')
  end.

(** [m * 2^e * 100] rounded to the nearest integer, ties to even. *)
Definition hundredths (m e : Z) : Z :=
  if 0 <=? e then m * 2 ^ e * 100
  else
    let d := 2 ^ (- e) in
    let q := (m * 100) / d in
    let r := (m * 100) mod d in
    if 2 * r <? d then q
    else if d <? 2 * r then q + 1
    else if Z.even q then q else q + 1.

Definition sign_text (plus negative : bool) : string :=
  if negative then "-" else if plus then "+" else "".

(** [format(x, '+.2f')], [format(x, ',.2f')] and their like: [plus] is
    the [+] option, [comma] the [,] option. *)
Definition format_2f (plus comma : bool) (x : float) : string :=
  match Prim2SF x with
  | S754_nan => sign_text plus false +:+ "nan"
  | S754_infinity s => sign_text plus s +:+ "inf"
  | S754_zero s => sign_text plus s +:+ "0.00"
  | S754_finite s m e =>
      let h := hundredths (Z.pos m) e in
      let whole := digits (h / 100) in
      let cents := digits (h mod 100) in
      sign_text plus s
        +:+ (if comma then grouped whole else whole)
        +:+ "." +:+ (if h mod 100 <? 10 then "0" +:+ cents else cents)
  end.

(** The binary64 nearest to [n / d], ties to even, for [0 < n], [0 < d]:
    the quotient is taken with 64 bits or more and a last bit that records
    a remainder, then rounded. *)
Definition nearest (negative : bool) (n d : Z) : float :=
  let k := 64 + Z.log2 d - Z.log2 n in
  let '(n', d') := if 0 <=? k then (n * 2 ^ k, d) else (n, d * 2 ^ (- k)) in
  let q := n' / d' in
  let sticky := if n' mod d' =? 0 then 0 else 1 in
  let m := 2 * q + sticky in
  SF2Prim (binary_normalize prec emax (if negative then - m else m) (- k - 1) false).

Definition is_digit (c : ascii) : bool :=
  let n := N_of_ascii c in ((48 <=? n) && (n <=? 57))%N.

Definition all_digits (s : string) : bool :=
  forallb is_digit (String.list_ascii_of_string s).

Definition number_of (s : string) : Z :=
  match NilZero.uint_of_string s with
  | Some u => Z.of_N (N.of_uint u)
  | None => 0
  end.

(** Splitting at the first occurrence of one of two characters. *)
Fixpoint cut (c1 c2 : ascii) (s : string) : string * option string :=
  match s with
  | "" => ("", None)
  | String a s' =>
      if bool_decide (a = c1) || bool_decide (a = c2) then ("", Some s')
      else let '(l, r) := cut c1 c2 s' in (String a l, r)
  end.

Definition unsigned (s : string) : bool * string :=
  match s with
  | String "-" s' => (true, s')
  | String "+" s' => (false, s')
  | _ => (false, s)
  end.

(** [float(s)] on a stripped [s] in decimal notation (digits, an optional
    fraction, an optional exponent), [inf], [infinity] or [nan], in lower
    or upper case; [None] stands for [ValueError]. Digit separators [_]
    are not read. *)
Definition float_of_string (s : string) : option float :=
  let '(negative, body) := unsigned s in
  let '(mantissa, exponent) := cut "e" "E" body in
  let '(whole, fraction) := cut "." "." mantissa in
  let fraction' := default "" fraction in
  match body with
  | String c _ =>
      if bool_decide (c = "i"%char) || bool_decide (c = "I"%char)
         || bool_decide (c = "n"%char) || bool_decide (c = "N"%char) then
        let word := lower body in
        if bool_decide (word = "inf") || bool_decide (word = "infinity")
        then Some (if negative then neg_infinity else infinity)
        else if bool_decide (word = "nan") then Some nan
        else None
      else
        let '(exp_negative, exp_digits) := unsigned (default "0" exponent) in
        if all_digits whole && all_digits fraction' && all_digits exp_digits
           && negb (bool_decide (whole +:+ fraction' = ""))
           && negb (bool_decide (exp_digits = ""))
        then
          let m := number_of (whole +:+ fraction') in
          let p := (if exp_negative then - number_of exp_digits else number_of exp_digits)
                   - Z.of_nat (String.length fraction') in
          if m =? 0 then Some (if negative then (-0)%float else 0%float)
          else Some (if 0 <=? p then nearest negative (m * 10 ^ p) 1
                     else nearest negative m (10 ^ (- p)))
        else None
  | "" => None
  end.

Global Instance float_FloatText : FloatText float := {|
  App.format_2f := format_2f;
  App.float_of_string := float_of_string
|}.

End Binary64Text.

(** ** Sample data *)

Module Samples.
Import PyStr TextIO Store Quote App Binary64Text.

(** A machine with neither file. *)
Definition fresh_files : files := Files Posix None None.

(** The list of the specification's example, and a ticker with a line
    feed inside. *)
Definition mixed_case : list string := ["bhp.ax"; "BHP.AX"; "pl8.ax"].
Definition a_LF_b : string := "a" +:+ String LF "b".

(** A settings file whose second line holds two equals signs. *)
Definition two_equals : string :=
  "time_range=6 Hrs" +:+ String LF "note=a=b" +:+ String LF "".

(** Two hours of one-minute closes: 36.0 an hour ago, 44.0 elsewhere. *)
Definition two_hours : list float :=
  replicate 60 44%float ++ [36%float] ++ replicate 59 44%float.

(** A complete answer and the quote computed from it. *)
Definition full_answer : response float :=
  Response (Some 45%float) (Some 40%float) [40%float; 42%float; 44%float] two_hours.

Definition full_quote : quote float :=
  MkQuote (PyNum 45%float) (PyNum 40%float) (PyNum 5%float) (PyNum 12.5%float)
          (NpFloat 9%float) (NpFloat 25%float) "green"
          [40%float; 42%float; 44%float] "30 Days".

(** An answer without the scalar price, with a short one-minute series. *)
Definition bare_answer : response float :=
  Response None (Some 41%float) [32%float; 42%float; 40%float] [44%float].

(** A provider that knows AAA.AX and fails on every other symbol; its
    state counts the conversations. *)
Definition one_symbol_provider (pv : nat) (ticker : string)
    (graph hourly : string * string) : nat * result (response float) :=
  (S pv, if bool_decide (ticker = "AAA.AX") then Ok full_answer
         else Raise ProviderError).

(** A provider that answers its first conversation only, whatever the
    symbol; its state counts the conversations. *)
Definition first_call_provider (pv : nat) (ticker : string)
    (graph hourly : string * string) : nat * result (response float) :=
  (S pv, if bool_decide (pv = 0) then Ok full_answer else Raise ProviderError).

(** The application as [init] leaves it on a machine whose symbol
    file lists AAA.AX and BBB.AX. *)
Definition two_symbol_files : files :=
  Files Posix (Some ("AAA.AX" +:+ String LF "BBB.AX")) None.

Definition started : app float :=
  {| tickers := ["AAA.AX"; "BBB.AX"];
     tab_widgets := list_to_set ["AAA.AX"; "BBB.AX"];
     all_stock_data := ∅;
     line_visibility := ∅;
     sort_column := "ticker";
     sort_reverse := false;
     main_tree := [];
     heading_rebound := ∅;
     time_range_combo := "30 Days";
     submitted := [];
     disk := two_symbol_files |}.

(** The first batch and the application once it has been merged. *)
Definition first_batch : gmap string (snapshot float) :=
  (_run_fetch one_symbol_provider (tickers started) "30d" "1d" "1d" "1m" "30 Days" 0).2.

Definition shown : app float := _handle_fetch_result (Ok first_batch) started.

(** The user hides the line of AAA.AX. *)
Definition hidden : app float := toggle_chart_visibility "AAA.AX" "#1" shown.

End Samples.

(** ** Views, settings and shutdown *)

Module More.
Import PyStr TextIO Store Quote App.

(** [_get_safe_bg_color]; [cget] is what [self.cget('bg')] returns or
    raises. *)
Definition _get_safe_bg_color (cget : result string) : string :=
  match cget with
  | Ok bg_color =>
      if negb (String.prefix "#" bg_color)
         || negb (bool_decide (String.length bg_color ∈ [4; 5; 7; 9]))
      then "#1e1e1e"
      else bg_color
  | Raise _ => "#1e1e1e"
  end.

Section batches.
Context {F : Type} {provider : Type}.
Context (ask : provider → string → string * string → string * string
               → provider * result (response F)).

(** The provider after the conversations about [tickers], held one
    after the other in the order of the list. *)
Definition asked (graph hourly : string * string) (pv : provider)
    (tickers : list string) : provider :=
  foldl (λ pv ticker, (ask pv ticker graph hourly).1) pv tickers.

End batches.

Section views.
Context {F : Type} `{Float64 F} `{FloatText F}.


(** The test of the loop of [_plot_main_monitor]: the line of a symbol is
    drawn when the symbol is marked visible, its snapshot is not flagged
    and its history is not empty. *)
Definition drawn (visibility : gmap string bool) (ticker : string)
    (data : snapshot F) : bool :=
  default true (visibility !! ticker)
  && match data with
     | Fetched q => bool_decide (history q ≠ [])
     | Failed => false
     end.

(** The labels of the lines [_plot_main_monitor] draws. *)
Definition plotted (st : app F) : gset string :=
  dom (filter (λ kv, drawn (line_visibility st) kv.1 kv.2 = true)
              (all_stock_data st)).

(** [has_data] at the end of the loop: without it the chart shows
    "ADD STOCKS TO VIEW COMBINED CHART" instead. *)
Definition has_data (st : app F) : bool := bool_decide (plotted st ≠ ∅).

(** [apply_settings]: [current] is [self.settings]; the result holds the
    new [self.settings]. *)
Definition apply_settings (new_settings current : settings) (st : app F)
  : settings * app F :=
  let changed_range := bool_decide (time_range new_settings ≠ time_range current) in
  let changed_timezone := bool_decide (timezone new_settings ≠ timezone current) in
  let st' :=
    {| tickers := tickers st;
       tab_widgets := tab_widgets st;
       all_stock_data := all_stock_data st;
       line_visibility := line_visibility st;
       sort_column := sort_column st;
       sort_reverse := sort_reverse st;
       main_tree := main_tree st;
       heading_rebound := heading_rebound st;
       time_range_combo := time_range new_settings;
       submitted := submitted st;
       disk := save_settings new_settings (disk st) |} in
  (new_settings, if changed_range || changed_timezone then fetch_data st' else st').

(** The events that leave the visibility choice made for a symbol
    alone: all but a click on its own row and its removal. *)
Definition spares (ticker : string) (ev : event F) : Prop :=
  match ev with
  | ToggleVisibility item_id _ => item_id ≠ ticker
  | RemoveStock (Some selected) => selected ≠ ticker
  | _ => True
  end.

(** [on_close]: the files the application leaves behind. *)
Definition on_close (st : app F) : files :=
  save_stocks (tickers st) (disk st).

End views.

(** Tickers as [load_stocks] returns them. *)
Definition clean (u : string) : Prop := normal u ∧ one_line u = true.

(** An answer whose scalar open is zero, with no history. *)
Definition zero_open_answer : response float :=
  Response (Some 1%float) (Some 0%float) [] [].

End More.

(** * Properties *)

(** ** Facts about [str] *)

Module PyStrFacts.
Import PyStr TextIO.

Lemma app_nil (s : string) : "" +:+ s = s.
Proof. reflexivity. Qed.

Lemma app_cons (c : ascii) (s t : string) : String c s +:+ t = String c (s +:+ t).
Proof. reflexivity. Qed.

Lemma isspace_upper_char c : isspace (upper_char c) = isspace c.
Proof. by destruct c as [[] [] [] [] [] [] [] []]. Qed.

Lemma upper_char_idemp c : upper_char (upper_char c) = upper_char c.
Proof. by destruct c as [[] [] [] [] [] [] [] []]. Qed.

Lemma upper_char_LF c : bool_decide (upper_char c = LF) = bool_decide (c = LF).
Proof. by destruct c as [[] [] [] [] [] [] [] []]. Qed.

Lemma upper_char_CR c : bool_decide (upper_char c = CR) = bool_decide (c = CR).
Proof. by destruct c as [[] [] [] [] [] [] [] []]. Qed.

Lemma upper_char_dot c : bool_decide (upper_char c = "."%char) = bool_decide (c = "."%char).
Proof. by destruct c as [[] [] [] [] [] [] [] []]. Qed.

Lemma isspace_LF : isspace LF = true.
Proof. reflexivity. Qed.

Lemma upper_idemp s : upper (upper s) = upper s.
Proof. induction s; simpl; [done|]. by rewrite upper_char_idemp, IHs. Qed.

Lemma truthy_upper s : truthy (upper s) = truthy s.
Proof. by destruct s. Qed.

Lemma truthy_false s : truthy s = false ↔ s = "".
Proof. by destruct s. Qed.

Lemma truthy_true s : truthy s = true ↔ s ≠ "".
Proof. by destruct s. Qed.

Lemma upper_nil s : upper s = "" ↔ s = "".
Proof. by destruct s. Qed.

Lemma contains_upper_LF s : contains LF (upper s) = contains LF s.
Proof. induction s; simpl; [done|]. by rewrite upper_char_LF, IHs. Qed.

Lemma contains_upper_CR s : contains CR (upper s) = contains CR s.
Proof. induction s; simpl; [done|]. by rewrite upper_char_CR, IHs. Qed.

Lemma contains_upper_dot s : contains "." (upper s) = contains "." s.
Proof. induction s; simpl; [done|]. by rewrite upper_char_dot, IHs. Qed.

Lemma contains_app c s t : contains c (s +:+ t) = contains c s || contains c t.
Proof.
  induction s as [|a s IH]; [done|].
  rewrite app_cons. simpl. rewrite IH. by destruct (bool_decide (a = c)).
Qed.

(** *** Stripping *)

Section strip.
Context (p : ascii → bool).

Lemma lstrip_by_upper (q : ascii → bool) s :
  (∀ c, q (upper_char c) = q c) →
  lstrip_by q (upper s) = upper (lstrip_by q s).
Proof.
  intros Hq. induction s as [|c s IH]; simpl; [done|].
  rewrite Hq. by destruct (q c).
Qed.

Lemma rstrip_by_upper (q : ascii → bool) s :
  (∀ c, q (upper_char c) = q c) →
  rstrip_by q (upper s) = upper (rstrip_by q s).
Proof.
  intros Hq. induction s as [|c s IH]; simpl; [done|].
  rewrite IH, Hq. destruct (rstrip_by q s); simpl; [|done].
  by destruct (q c).
Qed.

Lemma lstrip_by_idemp s : lstrip_by p (lstrip_by p s) = lstrip_by p s.
Proof.
  induction s as [|c s IH]; simpl; [done|].
  destruct (p c) eqn:Hc; [done|]. simpl. by rewrite Hc.
Qed.

Lemma rstrip_by_cons c s :
  rstrip_by p (String c s) =
    match rstrip_by p s with
    | "" => if p c then "" else String c ""
    | r => String c r
    end.
Proof. reflexivity. Qed.

Lemma rstrip_by_idemp s : rstrip_by p (rstrip_by p s) = rstrip_by p s.
Proof.
  induction s as [|c s IH]; [done|].
  rewrite rstrip_by_cons.
  destruct (rstrip_by p s) as [|d r] eqn:Hr.
  - destruct (p c) eqn:Hc; simpl; [done|]. by rewrite Hc.
  - rewrite rstrip_by_cons, IH. done.
Qed.

(** Stripping on the left keeps a string that has nothing to strip on
    the right that way. *)
Lemma rstrip_by_lstrip_by s :
  rstrip_by p s = s → rstrip_by p (lstrip_by p s) = lstrip_by p s.
Proof.
  induction s as [|c s IH]; [done|].
  intros Hs. simpl lstrip_by. destruct (p c) eqn:Hc; [|done].
  apply IH. rewrite rstrip_by_cons, Hc in Hs.
  destruct (rstrip_by p s) as [|d r]; [done|]. congruence.
Qed.

Lemma strip_by_idemp s : strip_by p (strip_by p s) = strip_by p s.
Proof.
  unfold strip_by.
  rewrite (rstrip_by_lstrip_by (rstrip_by p s)) by apply rstrip_by_idemp.
  apply lstrip_by_idemp.
Qed.

Lemma rstrip_by_snoc s c : p c = true → rstrip_by p (s +:+ String c "") = rstrip_by p s.
Proof.
  intros Hc. induction s as [|a s IH]; simpl.
  - by rewrite Hc.
  - by rewrite IH.
Qed.

Lemma strip_by_snoc s c : p c = true → strip_by p (s +:+ String c "") = strip_by p s.
Proof. intros. unfold strip_by. by rewrite rstrip_by_snoc. Qed.

(** A stripped string neither starts nor ends with a stripped
    character. *)
Lemma lstrip_by_head s c r : lstrip_by p s = String c r → p c = false.
Proof.
  induction s as [|a s IH]; simpl; [done|].
  destruct (p a) eqn:Ha; [done|]. congruence.
Qed.

Lemma strip_by_head s c r : strip_by p s = String c r → p c = false.
Proof. apply lstrip_by_head. Qed.

End strip.

Lemma strip_upper s : strip (upper s) = upper (strip s).
Proof.
  unfold strip, strip_by.
  rewrite rstrip_by_upper, lstrip_by_upper; auto using isspace_upper_char.
Qed.

Lemma strip_idemp s : strip (strip s) = strip s.
Proof. apply strip_by_idemp. Qed.

(** No character a strip keeps is lost or added. *)
Lemma contains_lstrip_by p c s : contains c (lstrip_by p s) = true → contains c s = true.
Proof.
  induction s as [|a s IH]; simpl; [done|].
  destruct (p a); simpl; [|done]. intros ->%IH. apply orb_true_r.
Qed.

Lemma contains_rstrip_by p c s : contains c (rstrip_by p s) = true → contains c s = true.
Proof.
  induction s as [|a s IH]; simpl; [done|].
  destruct (rstrip_by p s) as [|d r].
  - destruct (p a); simpl; [done|]. rewrite orb_false_r. intros ->. done.
  - simpl in *. destruct (bool_decide (a = c)); [done|]. apply IH.
Qed.

Lemma contains_strip_by p c s : contains c (strip_by p s) = true → contains c s = true.
Proof. intros ?%contains_lstrip_by%contains_rstrip_by. done. Qed.

(** *** Counting and splitting *)






End PyStrFacts.

(** ** Facts about the persisted files *)

Module StoreFacts.
Import PyStr TextIO Store PyStrFacts.

Lemma read_write_text os s : contains CR s = false → read_text (write_text os s) = s.
Proof.
  induction s as [|c s IH]; simpl; [done|].
  intros [Hc Hs]%orb_false_elim. apply bool_decide_eq_false in Hc.
  case_bool_decide as Hlf.
  - subst c. destruct os; simpl; by rewrite IH.
  - simpl. rewrite bool_decide_false by done. by rewrite IH.
Qed.

Lemma lines_one s : contains LF s = false → s ≠ "" → lines s = [s].
Proof.
  induction s as [|c s IH]; simpl; [done|].
  intros [Hc Hs]%orb_false_elim _. rewrite Hc.
  destruct s as [|d s]; [done|]. by rewrite IH.
Qed.

Lemma lines_app s rest :
  contains LF s = false →
  lines (s +:+ String LF rest) = (s +:+ String LF "") :: lines rest.
Proof.
  induction s as [|c s IH]; simpl; [done|].
  intros [Hc Hs]%orb_false_elim. rewrite Hc. by rewrite IH.
Qed.

Lemma contains_join c sep l :
  contains c sep = false → Forall (λ s, contains c s = false) l →
  contains c (join sep l) = false.
Proof.
  intros Hsep. induction 1 as [|s l Hs Hl IH]; [done|].
  destruct l as [|s' l]; [done|].
  change (contains c (s +:+ sep +:+ join sep (s' :: l)) = false).
  by rewrite !contains_app, Hs, Hsep, IH.
Qed.

(** *** [sorted(list(set(xs)))] *)

Lemma sorted_set_Sorted xs : Sorted (≤)%string (sorted_set xs).
Proof. apply (Sorted_merge_sort _). Qed.

Lemma sorted_set_NoDup xs : NoDup (sorted_set xs).
Proof.
  unfold sorted_set. rewrite merge_sort_Permutation. apply NoDup_elements.
Qed.

Lemma elem_of_sorted_set xs x : x ∈ sorted_set xs ↔ x ∈ xs.
Proof.
  unfold sorted_set.
  rewrite merge_sort_Permutation, elem_of_elements, elem_of_list_to_set. done.
Qed.

(** The result does not depend on the order or the repetitions of the
    input. *)
Lemma sorted_set_ext xs ys : (∀ x, x ∈ xs ↔ x ∈ ys) → sorted_set xs = sorted_set ys.
Proof.
  intros Hxy. unfold sorted_set. f_equal. f_equal.
  apply set_eq. intros x. by rewrite !elem_of_list_to_set.
Qed.

Lemma sorted_set_fixed xs : Sorted (≤)%string xs → NoDup xs → sorted_set xs = xs.
Proof.
  intros Hs Hn. apply (Sorted_unique (≤)%string); [apply sorted_set_Sorted|done|].
  unfold sorted_set. by rewrite merge_sort_Permutation, elements_list_to_set.
Qed.

Lemma sorted_set_idemp xs : sorted_set (sorted_set xs) = sorted_set xs.
Proof. apply sorted_set_fixed; [apply sorted_set_Sorted|apply sorted_set_NoDup]. Qed.

(** *** Normal forms of tickers *)

Lemma elem_of_normalized xs u :
  u ∈ normalized xs ↔ ∃ x, x ∈ xs ∧ strip x ≠ "" ∧ u = upper (strip x).
Proof.
  unfold normalized. rewrite list_elem_of_fmap. split.
  - intros (x & -> & [Hx ?]%list_elem_of_filter).
    exists x. by rewrite <-truthy_true.
  - intros (x & ? & Hx & ->). exists x. split; [done|].
    apply list_elem_of_filter. by rewrite truthy_true.
Qed.

Lemma normalized_normal xs u : u ∈ normalized xs → normal u.
Proof.
  intros (x & _ & Hx & ->)%elem_of_normalized. repeat split.
  - by rewrite strip_upper, strip_idemp.
  - apply upper_idemp.
  - by rewrite upper_nil.
Qed.

Lemma normalized_one_line xs u :
  Forall (λ x, one_line (strip x) = true) xs → u ∈ normalized xs → one_line u = true.
Proof.
  intros Hxs (x & Hx & _ & ->)%elem_of_normalized.
  rewrite Forall_forall in Hxs. specialize (Hxs x Hx).
  unfold one_line in *. by rewrite contains_upper_LF, contains_upper_CR.
Qed.

(** Lines that are normal come back as they are. *)
Lemma normalized_fixed us : Forall normal us → normalized us = us.
Proof.
  unfold normalized. induction 1 as [|u us (Hs & Hu & Hne) _ IH]; [done|].
  rewrite filter_cons_True by (by rewrite Hs, truthy_true).
  rewrite fmap_cons, IH, Hs, Hu. done.
Qed.

Lemma normalized_lines_join us :
  Forall normal us → Forall (λ u, contains LF u = false) us →
  normalized (lines (join (String LF "") us)) = us.
Proof.
  intros Hn Hl. induction Hl as [|u us Hu Hus IH]; [done|].
  apply Forall_cons in Hn as [(Hs & Hup & Hne) Hn].
  destruct us as [|v us].
  - simpl. rewrite lines_one by done. by apply normalized_fixed; repeat constructor.
  - change (join (String LF "") (u :: v :: us))
      with (u +:+ String LF (join (String LF "") (v :: us))).
    rewrite lines_app by done. unfold normalized in *.
    assert (strip (u +:+ String LF "") = u) as Hsu
      by (unfold strip; by rewrite strip_by_snoc).
    rewrite filter_cons_True by (by rewrite Hsu, truthy_true).
    rewrite fmap_cons, IH, Hsu, Hup by done. done.
Qed.

(** Reloading what [save_stocks] wrote for tickers that hold no line
    break. *)
Lemma load_save_stocks tickers fs :
  Forall (λ t, one_line (strip t) = true) tickers →
  load_stocks (save_stocks tickers fs) = sorted_set (normalized tickers).
Proof.
  intros Hol. unfold load_stocks, save_stocks. simpl.
  set (us := sorted_set (normalized tickers)).
  assert (Forall normal us) as Hn.
  { apply Forall_forall. intros u Hu. unfold us in Hu.
    rewrite elem_of_sorted_set in Hu. by eapply normalized_normal. }
  assert (Forall (λ u, one_line u = true) us) as Ho.
  { apply Forall_forall. intros u Hu. unfold us in Hu.
    rewrite elem_of_sorted_set in Hu. by eapply normalized_one_line. }
  rewrite read_write_text.
  - rewrite normalized_lines_join; [apply sorted_set_idemp|done|].
    eapply Forall_impl; [exact Ho|]. unfold one_line.
    intros u [?%negb_true_iff _]%andb_true_iff. done.
  - apply contains_join; [done|].
    eapply Forall_impl; [exact Ho|]. unfold one_line.
    intros u [_ ?%negb_true_iff]%andb_true_iff. done.
Qed.

(** C5, as the code has it. For tickers of 7-bit ASCII characters that
    hold no line break once stripped, saving and reloading yields the
    sorted list, without repetition, of the stripped and uppercased
    entries that are not blank; it depends on the set of these entries
    only, not on the order, case or repetitions of the input; and saving
    and reloading the result returns it unchanged. *)
Theorem save_load_stocks_one_line (tickers : list string) (fs : files) :
  Forall (λ t, isascii t = true) tickers →
  Forall (λ t, one_line (strip t) = true) tickers →
  let reloaded := load_stocks (save_stocks tickers fs) in
  reloaded = sorted_set (normalized tickers) ∧
  Sorted (≤)%string reloaded ∧
  NoDup reloaded ∧
  (∀ u, u ∈ reloaded ↔ ∃ t, t ∈ tickers ∧ strip t ≠ "" ∧ u = upper (strip t)) ∧
  (∀ tickers' fs',
     Forall (λ t, isascii t = true) tickers' →
     Forall (λ t, one_line (strip t) = true) tickers' →
     (∀ u, u ∈ normalized tickers' ↔ u ∈ normalized tickers) →
     load_stocks (save_stocks tickers' fs') = reloaded) ∧
  (∀ fs', load_stocks (save_stocks reloaded fs') = reloaded).
Proof.
  intros _ Hol. simpl. rewrite load_save_stocks by done.
  split; [done|]. split; [apply sorted_set_Sorted|].
  split; [apply sorted_set_NoDup|]. split; [|split].
  - intros u. by rewrite elem_of_sorted_set, elem_of_normalized.
  - intros tickers' fs' _ Hol' Hsame. rewrite load_save_stocks by done.
    by apply sorted_set_ext.
  - intros fs'.
    assert (Forall normal (sorted_set (normalized tickers))) as Hn.
    { apply Forall_forall. intros u Hu. rewrite elem_of_sorted_set in Hu.
      by eapply normalized_normal. }
    rewrite load_save_stocks.
    + rewrite normalized_fixed by done. apply sorted_set_idemp.
    + apply Forall_forall. intros u Hu.
      rewrite Forall_forall in Hn. destruct (Hn u Hu) as (-> & _ & _).
      rewrite elem_of_sorted_set in Hu. by eapply normalized_one_line.
Qed.

(** The example of the specification. *)
Lemma save_load_stocks_mixed_case :
  load_stocks (save_stocks Samples.mixed_case Samples.fresh_files)
    = ["BHP.AX"; "PL8.AX"].
Proof.
  destruct (save_load_stocks_one_line Samples.mixed_case Samples.fresh_files)
    as [-> _]; [| |vm_compute; reflexivity].
  - repeat constructor.
  - repeat constructor.
Defined.

(** C5, as stated, fails on a ticker with a line feed inside: the entry
    "a\nb" is written as two lines and comes back as two tickers. *)
Lemma save_load_stocks_line_feed :
  load_stocks (save_stocks [Samples.a_LF_b] Samples.fresh_files) = ["A"; "B"] ∧
  sorted_set (normalized [Samples.a_LF_b]) = [upper Samples.a_LF_b] ∧
  upper Samples.a_LF_b = "A" +:+ String LF "B".
Proof. vm_compute. done. Qed.

(** C9. Without a symbol file the tracked list is the built-in one. *)
Theorem load_stocks_default (fs : files) :
  STOCK_FILE fs = None → load_stocks fs = ["BHP.AX"; "PL8.AX"].
Proof. unfold load_stocks. by intros ->. Qed.

Lemma load_stocks_default_fresh :
  load_stocks Samples.fresh_files = ["BHP.AX"; "PL8.AX"].
Proof. apply (load_stocks_default Samples.fresh_files). reflexivity. Defined.

(** *** Settings *)



Lemma load_settings_no_file fs :
  TIMEZONE_FILE fs = None →
  load_settings fs = Ok (Settings DEFAULT_TIME_RANGE DEFAULT_TIMEZONE).
Proof. unfold load_settings. by intros ->. Qed.



(** Lines without an equals sign, unknown keys and unknown values are
    passed over. *)
Lemma load_settings_passes_over :
  load_settings
    (Files Posix None
       (Some ("junk" +:+ String LF "colour=red" +:+ String LF
              "time_range=1 Year" +:+ String LF
              " timezone=Australia/Perth " +:+ String LF "")))
  = Ok (Settings "30 Days" "Australia/Perth").
Proof. vm_compute. reflexivity. Qed.

(** C7 fails on the code: a line with two equals signs splits into three
    parts, the unpacking [for key, value in lines] raises [ValueError],
    and [load_settings] raises with it. *)
Theorem load_settings_two_equals :
  load_settings (Files Posix None (Some Samples.two_equals)) = Raise ValueError.
Proof. vm_compute. reflexivity. Qed.

End StoreFacts.

(** ** Facts about the metrics *)

Module QuoteFacts.
Import Quote.

Section facts.
Context {F : Type} `{Float64 F}.

Lemma bind_Ok {A B} (r : result A) (k : A → result B) b :
  r ≫= k = Ok b ↔ ∃ a, r = Ok a ∧ k a = Ok b.
Proof.
  destruct r as [a|e]; simpl; split.
  - by exists a.
  - by intros (a' & [= <-] & ?).
  - done.
  - by intros (a' & ? & _).
Qed.

(** Division by a numpy scalar never raises. *)
Lemma div_numpy (a : scalar F) x :
  div a (NpFloat x) = Ok (NpFloat (f_div (payload a) x)).
Proof. unfold div, coerce. simpl. by rewrite orb_true_r. Qed.

Lemma iloc_neg_Ok (series : list F) k :
  0 < k → k ≤ length series →
  ∃ x, series !! (length series - k) = Some x ∧ iloc_neg series k = Ok x.
Proof.
  intros Hk Hlen. unfold iloc_neg. rewrite decide_True by done.
  destruct (lookup_lt_is_Some_2 series (length series - k)) as [x Hx]; [lia|].
  exists x. by rewrite Hx.
Qed.

Lemma iloc_neg_1 (series : list F) x : last series = Some x → iloc_neg series 1 = Ok x.
Proof.
  intros Hx. unfold iloc_neg. rewrite last_lookup in Hx.
  destruct series; [done|]. rewrite decide_True by (simpl; lia).
  replace (length (f :: series) - 1) with (pred (length (f :: series))) by lia.
  by rewrite Hx.
Qed.

(** The hourly pair never raises: the sample is there when the length
    test passed, and the divisor is numpy's. *)
Lemma hourly_change_Ok (r : response F) price :
  ∃ ha hp, hourly_change r price = Ok (ha, hp).
Proof.
  unfold hourly_change. case_bool_decide as Hlen; simpl; [|eauto].
  destruct (gt0 price); [|eauto].
  destruct (iloc_neg_Ok (hourly_hist r) 60) as (x & _ & ->); [lia|done|].
  simpl. rewrite div_numpy. simpl. eauto.
Qed.

(** What a successful computation went through. *)
Lemma compute_quote_Ok (r : response F) range q :
  compute_quote r range = Ok q ↔
  ∃ price open_price ratio ha hp,
    scalar_prices r = Ok (price, open_price) ∧
    div (sub price open_price) open_price = Ok ratio ∧
    hourly_change r price = Ok (ha, hp) ∧
    q = MkQuote price open_price (sub price open_price)
          (mul ratio (PyNum f_hundred)) ha hp
          (if ge0 (sub price open_price) then "green" else "red")
          (hist r) range.
Proof.
  unfold compute_quote. rewrite bind_Ok. split.
  - intros ([price open_price] & Hp & Hq). simpl in Hq.
    apply bind_Ok in Hq as (ratio & Hr & Hq).
    apply bind_Ok in Hq as ([ha hp] & Hh & Hq). simpl in Hq.
    exists price, open_price, ratio, ha, hp. naive_solver.
  - intros (price & open_price & ratio & ha & hp & Hp & Hr & Hh & ->).
    exists (price, open_price). split; [done|]. simpl.
    rewrite Hr. simpl. rewrite Hh. done.
Qed.

(** C1. For a symbol whose fetch succeeded: with fewer than 60
    one-minute samples, or a price that is not above 0, both hourly
    figures are the float 0.0; with 60 samples or more and a price above
    0, the absolute figure is the price minus the sample 60 positions
    from the end, and the percentage is that figure divided by the same
    sample, times 100. *)
Theorem hourly_change_spec (r : response F) (range : string) (q : quote F) :
  compute_quote r range = Ok q →
  (length (hourly_hist r) < 60 ∨ gt0 (price q) = false →
     hourly_change_abs q = PyNum f_zero ∧ hourly_change_pct q = PyNum f_zero) ∧
  (60 ≤ length (hourly_hist r) ∧ gt0 (price q) = true →
     ∃ x ratio,
       hourly_hist r !! (length (hourly_hist r) - 60) = Some x ∧
       hourly_change_abs q = sub (price q) (NpFloat x) ∧
       div (hourly_change_abs q) (NpFloat x) = Ok ratio ∧
       hourly_change_pct q = mul ratio (PyNum f_hundred)).
Proof.
  intros (price & open_price & ratio & ha & hp & _ & _ & Hh & ->)%compute_quote_Ok.
  simpl. unfold hourly_change in Hh. split.
  - intros [Hlen | Hprice].
    + rewrite bool_decide_false in Hh by lia. simpl in Hh. by simplify_eq.
    + rewrite Hprice, andb_false_r in Hh. by simplify_eq.
  - intros [Hlen Hprice].
    rewrite bool_decide_true, Hprice in Hh by done. simpl in Hh.
    destruct (iloc_neg_Ok (hourly_hist r) 60) as (x & Hx & Hi); [lia|done|].
    rewrite Hi in Hh. simpl in Hh. rewrite div_numpy in Hh. simpl in Hh.
    simplify_eq. exists x. eexists. by rewrite div_numpy.
Qed.

(** C3. When the provider's answer lacks the scalar price or the scalar
    open, the price is the last and the open the first value of the
    long-resolution history, and the fetch succeeds; when that history
    is empty the fetch raises and the symbol gets the error-flagged
    snapshot. *)
Theorem scalar_fallback_spec (r : response F) (range : string) :
  regularMarketPrice r = None ∨ regularMarketOpen r = None →
  (∀ p o, last (hist r) = Some p → head (hist r) = Some o →
     ∃ q, compute_quote r range = Ok q ∧
          price q = NpFloat p ∧ open_price q = NpFloat o) ∧
  (hist r = [] →
     compute_quote r range = Raise ValueError ∧
     snapshot_of (compute_quote r range) = Failed).
Proof.
  intros Hnone.
  assert (scalar_prices r =
          if bool_decide (hist r ≠ []) then
            p ← iloc_neg (hist r) 1; o ← iloc_0 (hist r); Ok (NpFloat p, NpFloat o)
          else Raise ValueError) as Hsp.
  { unfold scalar_prices.
    destruct Hnone as [-> | ->]; [done|]. by destruct (regularMarketPrice r). }
  split.
  - intros p o Hp Ho.
    assert (scalar_prices r = Ok (NpFloat p, NpFloat o)) as Hpo.
    { rewrite Hsp, bool_decide_true by (by destruct (hist r)).
      rewrite (iloc_neg_1 _ _ Hp). simpl. by destruct (hist r); simplify_eq/=. }
    destruct (hourly_change_Ok r (NpFloat p)) as (ha & hp & Hh).
    eexists. split.
    + apply compute_quote_Ok. do 5 eexists.
      split; [exact Hpo|]. split; [apply div_numpy|]. split; [exact Hh|]. done.
    + done.
  - intros Hnil. unfold compute_quote.
    rewrite Hsp, bool_decide_false by (by intros ?). done.
Qed.

(** *** The batch *)

Section batch.
Context {provider : Type}.
Context (ask : provider → string → string * string → string * string
               → provider * result (response F)).
Context (graph hourly : string * string) (range : string).

Local Abbreviation step := (fetch_one ask graph hourly range).

Lemma fetch_one_snd acc ticker :
  (step acc ticker).2 =
    <[ticker := snapshot_of ((ask acc.1 ticker graph hourly).2
                               ≫= λ r, compute_quote r range)]> acc.2.
Proof. unfold fetch_one. by destruct (ask _ _ _ _). Qed.

(** Later symbols leave the entry of an earlier one alone. *)
Lemma foldl_fetch_one_other tickers acc ticker :
  ticker ∉ tickers → (foldl step acc tickers).2 !! ticker = acc.2 !! ticker.
Proof.
  revert acc. induction tickers as [|t tickers IH]; intros acc Hnotin; [done|].
  apply not_elem_of_cons in Hnotin as [Hne Hnotin]. simpl.
  rewrite IH, fetch_one_snd by done. by rewrite lookup_insert_ne.
Qed.

Lemma foldl_fetch_one_dom tickers acc :
  dom (foldl step acc tickers).2 = dom acc.2 ∪ list_to_set tickers.
Proof.
  revert acc. induction tickers as [|t tickers IH]; intros acc; simpl.
  - by rewrite (right_id_L ∅ (∪)).
  - rewrite IH, fetch_one_snd, dom_insert_L.
    by rewrite (comm_L (∪) {[t]}), <-(assoc_L (∪)).
Qed.

End batch.

(** C4. The batch gives every tracked symbol an entry and no other.
    The entry of a symbol is the outcome of its own conversation with
    the provider, whatever happened to the symbols before and after
    it: the error-flagged snapshot when fetching or computing raised,
    the computed quote otherwise. The batch is a total function: no
    exception of a symbol reaches its caller. *)
Theorem run_fetch_isolated {provider : Type}
    (ask : provider → string → string * string → string * string
           → provider * result (response F))
    (tickers : list string) (gp gi hp hi range : string) (pv : provider) :
  let new_data := (_run_fetch ask tickers gp gi hp hi range pv).2 in
  dom new_data = list_to_set tickers ∧
  ∀ before ticker after,
    tickers = before ++ ticker :: after → ticker ∉ after →
    let pv' := (_run_fetch ask before gp gi hp hi range pv).1 in
    let outcome :=
      (ask pv' ticker (gp, gi) (hp, hi)).2 ≫= λ r, compute_quote r range in
    new_data !! ticker = Some (snapshot_of outcome) ∧
    (∀ e, outcome = Raise e → new_data !! ticker = Some Failed) ∧
    (∀ q, outcome = Ok q → new_data !! ticker = Some (Fetched q)).
Proof.
  simpl. split.
  - unfold _run_fetch. rewrite foldl_fetch_one_dom. simpl.
    by rewrite dom_empty_L, (left_id_L ∅ (∪)).
  - intros before ticker after -> Hnotin.
    assert ((_run_fetch ask (before ++ ticker :: after) gp gi hp hi range pv).2
              !! ticker
            = Some (snapshot_of
                ((ask (_run_fetch ask before gp gi hp hi range pv).1 ticker
                    (gp, gi) (hp, hi)).2 ≫= λ r, compute_quote r range))) as Hl.
    { unfold _run_fetch. rewrite foldl_app. simpl.
      rewrite foldl_fetch_one_other, fetch_one_snd by done.
      by rewrite lookup_insert_eq. }
    rewrite Hl. split; [done|]. split; by intros ? ->.
Qed.

End facts.

(** *** On binary64 *)

Import Samples.

Lemma full_answer_quote : compute_quote full_answer "30 Days" = Ok full_quote.
Proof. vm_compute. reflexivity. Qed.

(** A full hour of samples: 45 against 36 an hour ago is +9, +25%. *)
Lemma hourly_change_full_answer :
  (length (hourly_hist full_answer) < 60 ∨ gt0 (price full_quote) = false →
     hourly_change_abs full_quote = PyNum 0%float ∧
     hourly_change_pct full_quote = PyNum 0%float) ∧
  (60 ≤ length (hourly_hist full_answer) ∧ gt0 (price full_quote) = true →
     ∃ x ratio,
       hourly_hist full_answer !! (length (hourly_hist full_answer) - 60) = Some x ∧
       hourly_change_abs full_quote = sub (price full_quote) (NpFloat x) ∧
       div (hourly_change_abs full_quote) (NpFloat x) = Ok ratio ∧
       hourly_change_pct full_quote = mul ratio (PyNum 100%float)).
Proof.
  refine (hourly_change_spec (H:=float_Float64) full_answer "30 Days" full_quote _).
  vm_compute. reflexivity.
Defined.

(** Without the scalar price both prices come from the history. *)
Lemma scalar_fallback_bare_answer :
  (∀ p o, last (hist bare_answer) = Some p → head (hist bare_answer) = Some o →
     ∃ q, compute_quote bare_answer "30 Days" = Ok q ∧
          price q = NpFloat p ∧ open_price q = NpFloat o) ∧
  (hist bare_answer = [] →
     compute_quote bare_answer "30 Days" = Raise ValueError ∧
     snapshot_of (compute_quote bare_answer "30 Days") = Failed).
Proof.
  apply (scalar_fallback_spec bare_answer "30 Days"). left. reflexivity.
Defined.

(** The scenario of the specification: AAA.AX is fetched, BBB.AX raises. *)
Lemma run_fetch_one_failure :
  first_batch !! "AAA.AX" = Some (Fetched full_quote) ∧
  first_batch !! "BBB.AX" = Some Failed ∧
  dom first_batch = {["AAA.AX"; "BBB.AX"]}.
Proof.
  unfold first_batch. change (App.tickers started) with ["AAA.AX"; "BBB.AX"].
  destruct (run_fetch_isolated one_symbol_provider ["AAA.AX"; "BBB.AX"]
              "30d" "1d" "1d" "1m" "30 Days" 0) as [Hdom Hrun].
  destruct (Hrun [] "AAA.AX" ["BBB.AX"]) as (_ & _ & Ha);
    [done|apply (bool_decide_unpack _); vm_compute; exact I|].
  destruct (Hrun ["AAA.AX"] "BBB.AX" []) as (_ & Hb & _);
    [done|apply not_elem_of_nil|].
  split; [apply Ha; vm_compute; reflexivity|].
  split; [apply (Hb ProviderError); vm_compute; reflexivity|].
  rewrite Hdom. simpl. by rewrite (right_id_L ∅ (∪)).
Defined.

End QuoteFacts.

(** ** Facts about the application *)

Module AppFacts.
Import PyStr TextIO Store Quote App PyStrFacts StoreFacts QuoteFacts.

Section facts.
Context {F : Type} `{Float64 F} `{FloatText F}.

(** *** Sorting *)

Section sorting.
Context {A : Type} (k : A → key F).

Lemma sort_insert_Permutation x l : sort_insert k x l ≡ₚ x :: l.
Proof.
  induction l as [|y l IH]; simpl; [done|].
  destruct (key_lt (k y) (k x)); [|done].
  rewrite IH. apply Permutation_swap.
Qed.

Lemma stable_sort_Permutation l : stable_sort k l ≡ₚ l.
Proof.
  induction l as [|x l IH]; simpl; [done|].
  by rewrite sort_insert_Permutation, IH.
Qed.

Lemma list_sort_Permutation reverse l : list_sort k reverse l ≡ₚ l.
Proof.
  unfold list_sort. destruct reverse.
  - by rewrite reverse_Permutation, stable_sort_Permutation, reverse_Permutation.
  - apply stable_sort_Permutation.
Qed.

(** Stability: items none of which is below another keep their
    order, in both directions. *)
Section stable.
Context (P : A → Prop) `{∀ x, Decision (P x)}.
Context (tie : ∀ x y, P x → P y → key_lt (k x) (k y) = false).



End stable.
End sorting.

(** *** The table *)

Lemma iid_make_row snapshots visibility ticker :
  iid (make_row snapshots visibility ticker) = ticker.
Proof. unfold make_row. by destruct (get_error _). Qed.

Lemma tags_make_row snapshots visibility ticker :
  tags (make_row snapshots visibility ticker) = row_tag (snapshots !! ticker).
Proof. unfold make_row. by destruct (get_error _). Qed.

Lemma treeview_sort_main_tree col reverse (st : app F) :
  main_tree (_treeview_sort_column col reverse st) ≡ₚ main_tree st.
Proof.
  simpl. rewrite list_sort_Permutation, <-list_fmap_compose.
  by rewrite list_fmap_id.
Qed.

Lemma treeview_sort_displayed col reverse (st : app F) :
  displayed st → displayed (_treeview_sort_column col reverse st).
Proof.
  unfold displayed. intros Hd ticker.
  rewrite treeview_sort_main_tree. apply Hd.
Qed.

Lemma update_main_monitor_main_tree (st : app F) :
  iid <$> main_tree (update_main_monitor st)
    ≡ₚ elements (dom (all_stock_data st)).
Proof.
  unfold update_main_monitor. rewrite treeview_sort_main_tree. simpl.
  unfold fresh_rows. rewrite <-list_fmap_compose.
  erewrite (list_fmap_ext _ id);
    [|intros ? ticker _; simpl; apply iid_make_row].
  rewrite list_fmap_id. apply merge_sort_Permutation.
Qed.

(** Every redraw shows exactly the symbols of the snapshot table. *)
Lemma update_main_monitor_displayed (st : app F) :
  displayed (update_main_monitor st).
Proof.
  intros ticker. rewrite update_main_monitor_main_tree.
  by rewrite elem_of_elements.
Qed.

Lemma update_main_monitor_visibility (st : app F) :
  line_visibility (update_main_monitor st)
    = line_visibility st ∪ ((λ _, true) <$> all_stock_data st).
Proof. reflexivity. Qed.

(** The rows of a redraw carry the tag of their snapshot. *)
Lemma update_main_monitor_tags (st : app F) (item : row) :
  item ∈ main_tree (update_main_monitor st) →
  tags item = row_tag (all_stock_data st !! iid item).
Proof.
  unfold update_main_monitor. rewrite treeview_sort_main_tree. simpl.
  unfold fresh_rows. intros (ticker & -> & _)%list_elem_of_fmap.
  by rewrite tags_make_row, iid_make_row.
Qed.

(** C2. For a symbol whose fetch succeeded with an open above 0: the
    daily absolute change is the price minus the open, the daily
    percentage is that change divided by the open, times 100, and the
    row of the symbol in the aggregate table is tagged gain when the
    absolute change is at least 0 and loss otherwise. *)
Theorem daily_change_spec (r : response F) (range : string) (q : quote F) :
  compute_quote r range = Ok q →
  gt0 (open_price q) = true →
  change_abs q = sub (price q) (open_price q) ∧
  (∃ ratio, div (change_abs q) (open_price q) = Ok ratio ∧
            daily_change_pct q = mul ratio (PyNum f_hundred)) ∧
  row_tag (Some (Fetched q)) = (if ge0 (change_abs q) then "gain" else "loss") ∧
  (∀ (st : app F) item,
     item ∈ main_tree (update_main_monitor st) →
     all_stock_data st !! iid item = Some (Fetched q) →
     tags item = if ge0 (change_abs q) then "gain" else "loss").
Proof.
  intros (price & open_price & ratio & ha & hp & _ & Hr & _ & ->)%compute_quote_Ok _.
  simpl. split; [done|]. split; [by exists ratio|]. split; [done|].
  intros st item Hitem Hq. by rewrite (update_main_monitor_tags st), Hq.
Qed.

(** *** The sort state *)

(** Every redraw inverts the stored direction. *)
Lemma update_main_monitor_sort_state (st : app F) :
  sort_column (update_main_monitor st) = sort_column st ∧
  sort_reverse (update_main_monitor st) = negb (sort_reverse st).
Proof. done. Qed.

(** A click on the heading of another column sorts on that column in
    ascending order. *)
Lemma header_click_other_column column_id col (st : app F) :
  col_map_get column_id = Some col → col ≠ sort_column st →
  let st' := on_main_tree_header_click "heading" column_id st in
  let rows :=
    fresh_rows (all_stock_data st)
      (line_visibility st ∪ ((λ _, true) <$> all_stock_data st)) in
  sort_column st' = col ∧
  main_tree st' =
    (stable_sort (λ item, sort_key col item.1)
                 ((λ item, (tree_set item col, item)) <$> rows)).*2.
Proof.
  intros Hcol Hne. unfold on_main_tree_header_click.
  rewrite bool_decide_false by (by intros []). rewrite Hcol.
  by rewrite bool_decide_false by done.
Qed.

(** A click on the heading of the sorted column sorts in the inverse
    of the stored direction and stores the direction it found. *)
Lemma header_click_same_column column_id (st : app F) :
  col_map_get column_id = Some (sort_column st) →
  let st' := on_main_tree_header_click "heading" column_id st in
  sort_column st' = sort_column st ∧ sort_reverse st' = sort_reverse st.
Proof.
  intros Hcol. unfold on_main_tree_header_click.
  rewrite bool_decide_false by (by intros []). rewrite Hcol.
  rewrite bool_decide_true by done. simpl. by rewrite negb_involutive.
Qed.

(** *** Adding a symbol *)

Lemma rstrip_by_app p s t :
  rstrip_by p t ≠ "" → rstrip_by p (s +:+ t) = s +:+ rstrip_by p t.
Proof.
  intros Ht. induction s as [|c s IH]; [done|].
  rewrite app_cons, rstrip_by_cons, IH.
  destruct (s +:+ rstrip_by p t) eqn:Hs.
  - destruct s; [|done]. by rewrite app_nil in Hs.
  - by rewrite app_cons, Hs.
Qed.

Lemma strip_dot_suffixed u :
  u ≠ "" → contains "." u = false → strip_char "." (u +:+ ".AX") = u +:+ ".AX".
Proof.
  intros Hu Hdot. unfold strip_char, strip_by.
  rewrite rstrip_by_app by done.
  destruct u as [|c u]; [done|]. simpl in *.
  apply orb_false_elim in Hdot as [-> _]. done.
Qed.

Lemma entered_ticker_cases entry :
  let u := upper (strip entry) in
  (u ≠ "" → contains "." u = false → entered_ticker entry = u +:+ ".AX") ∧
  (contains "." u = true → entered_ticker entry = strip_char "." u) ∧
  (u = "" → entered_ticker entry = "").
Proof.
  unfold entered_ticker. simpl. split; [|split].
  - intros Hu Hdot. rewrite Hdot. rewrite (proj2 (truthy_true _)) by done.
    by apply strip_dot_suffixed.
  - intros ->. by rewrite andb_false_r.
  - by intros ->.
Qed.

Lemma fetch_data_tickers (st : app F) : tickers (fetch_data st) = tickers st.
Proof. unfold fetch_data. by case_bool_decide. Qed.

Lemma add_stock_tickers entry (st : app F) :
  tickers (add_stock entry st) =
    if truthy (entered_ticker entry)
       && bool_decide (entered_ticker entry ∉ tickers st)
    then tickers st ++ [entered_ticker entry] else tickers st.
Proof.
  unfold add_stock.
  destruct (truthy _ && bool_decide _); [|done]. by rewrite fetch_data_tickers.
Qed.

Lemma add_stock_disk entry (st : app F) :
  tickers (add_stock entry st) ≠ tickers st →
  disk (add_stock entry st) = save_stocks (tickers (add_stock entry st)) (disk st).
Proof.
  rewrite add_stock_tickers. unfold add_stock.
  destruct (truthy _ && bool_decide _); [|done]. intros _.
  unfold fetch_data. by case_bool_decide.
Qed.

(** The tracked list after [add_stock], whatever the entry. *)
Lemma add_stock_cases (entry : string) (st : app F) :
  let ticker := entered_ticker entry in
  let st' := add_stock entry st in
  (ticker ≠ "" → ticker ∉ tickers st →
     tickers st' = tickers st ++ [ticker] ∧
     disk st' = save_stocks (tickers st') (disk st)) ∧
  (ticker = "" ∨ ticker ∈ tickers st → tickers st' = tickers st ∧ disk st' = disk st).
Proof.
  simpl. pose proof (add_stock_tickers entry st) as Ht. split.
  - intros Hne Hnew.
    rewrite (proj2 (truthy_true _)), bool_decide_true in Ht by done.
    simpl in Ht. split; [done|]. apply add_stock_disk. rewrite Ht.
    intros Heq. apply (f_equal length) in Heq.
    rewrite length_app in Heq. simpl in Heq. lia.
  - intros Hold. unfold add_stock.
    replace (truthy (entered_ticker entry)
             && bool_decide (entered_ticker entry ∉ tickers st)) with false; [done|].
    destruct Hold as [-> | Hold]; [done|].
    rewrite (bool_decide_false (_ ∉ _)) by (by intros ?).
    by rewrite andb_false_r.
Qed.

(** C8, as the code has it, for an entry of 7-bit ASCII characters.
    The ticker is the stripped and uppercased entry, with ".AX" appended
    when it is not empty and holds no ".", and then without the "." it
    begins or ends with. It is appended to the tracked list, which is
    then saved, exactly when it is not empty and not tracked yet;
    otherwise nothing changes; so tracked tickers stay unique. For an
    entry that, stripped, neither begins nor ends with ".", the ticker
    is the stripped and uppercased entry with ".AX" appended exactly when
    it is not empty and holds no ".", and tickers that all hold a "."
    still all hold one afterwards. *)
Theorem add_stock_spec (entry : string) (st : app F) :
  isascii entry = true →
  let u := upper (strip entry) in
  let suffixed :=
    if truthy u && negb (contains "." u) then u +:+ ".AX" else u in
  let ticker := entered_ticker entry in
  let st' := add_stock entry st in
  ticker = strip_char "." suffixed ∧
  (ticker ≠ "" → ticker ∉ tickers st →
     tickers st' = tickers st ++ [ticker] ∧
     disk st' = save_stocks (tickers st') (disk st)) ∧
  (ticker = "" ∨ ticker ∈ tickers st → st' = st) ∧
  (NoDup (tickers st) → NoDup (tickers st')) ∧
  (strip_char "." u = u →
   ticker = suffixed ∧
   ((∀ t, t ∈ tickers st → contains "." t = true) →
    ∀ t, t ∈ tickers st' → contains "." t = true)).
Proof.
  intros _. simpl.
  pose proof (entered_ticker_cases entry) as (Hplain & Hdot & Hnil).
  pose proof (add_stock_cases entry st) as (Happend & Hkeep).
  pose proof (add_stock_tickers entry st) as Ht.
  simpl in *. split; [done|]. split; [done|]. split; [|split].
  - intros Hold. unfold add_stock.
    replace (truthy (entered_ticker entry)
             && bool_decide (entered_ticker entry ∉ tickers st)) with false; [done|].
    destruct Hold as [-> | Hold]; [done|].
    rewrite (bool_decide_false (_ ∉ _)) by (by intros ?).
    by rewrite andb_false_r.
  - intros Hnd. rewrite Ht.
    destruct (truthy _); simpl; [|done]. case_bool_decide; [|done].
    apply NoDup_app. split; [done|]. split; [|apply NoDup_singleton].
    intros t Hin ->%list_elem_of_singleton. done.
  - intros Hu.
    assert (entered_ticker entry =
            if truthy (upper (strip entry))
               && negb (contains "." (upper (strip entry)))
            then upper (strip entry) +:+ ".AX" else upper (strip entry)) as He.
    { destruct (contains "." (upper (strip entry))) eqn:Hc.
      - rewrite andb_false_r. by rewrite Hdot, Hu.
      - rewrite andb_true_r.
        destruct (truthy (upper (strip entry))) eqn:Hn.
        + apply Hplain; [by apply truthy_true|done].
        + apply truthy_false in Hn. rewrite Hn. by apply Hnil. }
    split; [done|].
    intros Hall t. rewrite Ht.
    destruct (truthy (entered_ticker entry)) eqn:Hne; simpl; [|by auto].
    case_bool_decide; [|by auto].
    intros [Hin | ->%list_elem_of_singleton]%elem_of_app; [by auto|].
    apply truthy_true in Hne. rewrite He in Hne |- *.
    destruct (contains "." (upper (strip entry))) eqn:Hc.
    + by rewrite andb_false_r.
    + rewrite andb_true_r in Hne |- *.
      destruct (truthy (upper (strip entry))) eqn:Hn.
      * rewrite contains_app. by rewrite orb_true_r.
      * apply truthy_false in Hn. by rewrite Hn in Hne.
Qed.

(** *** Removing a symbol *)

Lemma elem_of_list_remove_ne x y l : y ≠ x → y ∈ list_remove x l ↔ y ∈ l.
Proof.
  intros Hne. induction l as [|z l IH]; simpl; [done|].
  destruct (decide (z = x)) as [->|Hz].
  - rewrite elem_of_cons. split; [by right|]. by intros [?|?].
  - rewrite !elem_of_cons, IH. done.
Qed.

Lemma not_elem_of_list_remove x l : NoDup l → x ∉ list_remove x l.
Proof.
  induction 1 as [|z l Hz Hl IH]; simpl; [apply not_elem_of_nil|].
  destruct (decide (z = x)) as [->|Hne]; [done|].
  rewrite not_elem_of_cons. done.
Qed.

Lemma list_remove_NoDup x l : NoDup l → NoDup (list_remove x l).
Proof.
  induction 1 as [|z l Hz Hl IH]; simpl; [constructor|].
  destruct (decide (z = x)) as [->|Hne]; [done|].
  constructor; [|done]. by rewrite elem_of_list_remove_ne.
Qed.

(** *** What no event undoes *)

Ltac handlers :=
  unfold handle, add_stock, remove_stock, on_main_tree_header_click,
    heading_command, toggle_chart_visibility, fetch_data,
    _handle_fetch_result, update_tabs.

(** No event takes a symbol out of the snapshot table. *)
Lemma handle_all_stock_data (st : app F) ev ticker :
  is_Some (all_stock_data st !! ticker) →
  is_Some (all_stock_data (handle st ev) !! ticker).
Proof.
  intros Hin. destruct ev as [| [?|] | | | | | [?|?] |]; handlers;
    repeat first [done | case_bool_decide | case_decide
                 | match goal with
                   | |- context [if ?b then _ else _] => destruct b
                   | |- context [match ?o with Some _ => _ | None => _ end] =>
                       destruct o
                   end]; simpl; try done.
  rewrite lookup_union. destruct Hin as [x ->].
  by destruct (_ !! ticker).
Qed.

(** Every event leaves the table showing the symbols of the snapshot
    table. *)
Lemma handle_displayed (st : app F) ev : displayed st → displayed (handle st ev).
Proof.
  intros Hd. destruct ev as [| [?|] | | | | | [?|?] |]; handlers;
    repeat first [done | case_bool_decide | case_decide
                 | apply update_main_monitor_displayed
                 | apply treeview_sort_displayed
                 | match goal with
                   | |- context [if ?b then _ else _] => destruct b
                   | |- context [match ?o with Some _ => _ | None => _ end] =>
                       destruct o
                   end].
Qed.

Lemma run_all_stock_data events (st : app F) ticker :
  is_Some (all_stock_data st !! ticker) →
  is_Some (all_stock_data (run events st) !! ticker).
Proof.
  revert st. unfold run.
  induction events as [|ev events IH]; intros st Hin; [done|].
  simpl. by apply IH, handle_all_stock_data.
Qed.

Lemma run_displayed events (st : app F) : displayed st → displayed (run events st).
Proof.
  revert st. unfold run.
  induction events as [|ev events IH]; intros st Hd; [done|].
  simpl. by apply IH, handle_displayed.
Qed.

(** X22. What [remove_stock] does for a tracked symbol. The symbol
    leaves the tracked list (its first occurrence does: all of it when
    the list holds no repetition), the other symbols stay, and the list
    is saved. The snapshot table stays as it is. After the redraw that
    ends [remove_stock] the symbol has the visibility entry [True] when
    it has a snapshot, and none otherwise. A symbol with a snapshot
    keeps its row in the aggregate table, whatever events follow. *)
Theorem remove_stock_spec (ticker : string) (st : app F) :
  ticker ∈ tickers st → ticker ≠ "Main Monitor" →
  let st' := remove_stock (Some ticker) st in
  (NoDup (tickers st) → ticker ∉ tickers st') ∧
  (∀ t, t ≠ ticker → t ∈ tickers st' ↔ t ∈ tickers st) ∧
  disk st' = save_stocks (tickers st') (disk st) ∧
  all_stock_data st' = all_stock_data st ∧
  line_visibility st' !! ticker = (λ _, true) <$> (all_stock_data st !! ticker) ∧
  (is_Some (all_stock_data st !! ticker) →
   ∀ events, ticker ∈ iid <$> main_tree (run events st')).
Proof.
  intros Hin Hmm. simpl. unfold remove_stock.
  rewrite bool_decide_false, bool_decide_true by done.
  split; [by apply not_elem_of_list_remove|].
  split; [by intros; apply elem_of_list_remove_ne|].
  split; [done|]. split; [done|]. split.
  - rewrite update_main_monitor_visibility. simpl.
    rewrite lookup_union_r by apply lookup_delete_eq.
    by rewrite lookup_fmap.
  - intros Hsnap events.
    apply run_displayed; [apply update_main_monitor_displayed|].
    apply elem_of_dom, run_all_stock_data. done.
Qed.

(** The tracked list stays free of repetitions. *)
Lemma handle_NoDup (st : app F) ev : NoDup (tickers st) → NoDup (tickers (handle st ev)).
Proof.
  intros Hnd. destruct ev as [entry| [?|] | | | | | [?|?] |];
    try (handlers;
         repeat first [done | case_bool_decide | case_decide
                      | match goal with
                        | |- context [if ?b then _ else _] => destruct b
                        | |- context [match ?o with Some _ => _ | None => _ end] =>
                            destruct o
                        end]; simpl; by try apply list_remove_NoDup).
  simpl. rewrite add_stock_tickers.
  destruct (truthy _); simpl; [|done]. case_bool_decide; [|done].
  apply NoDup_app. split; [done|]. split; [|apply NoDup_singleton].
  intros t Hin ->%list_elem_of_singleton. done.
Qed.

End facts.

(** *** On binary64 *)

Import Samples Binary64Text.

(** Decidable statements about the samples are settled by evaluation. *)
Ltac by_compute := apply (bool_decide_unpack _); vm_compute; exact I.

Lemma init_two_symbol_files : init two_symbol_files = Ok started.
Proof. vm_compute. reflexivity. Qed.

(** The daily figures of the complete answer: 45 against an open of 40
    is +5, +12.5%, a gain. *)
Lemma daily_change_full_answer :
  change_abs full_quote = sub (price full_quote) (open_price full_quote) ∧
  (∃ ratio, div (change_abs full_quote) (open_price full_quote) = Ok ratio ∧
            daily_change_pct full_quote = mul ratio (PyNum 100%float)) ∧
  row_tag (Some (Fetched full_quote))
    = (if ge0 (change_abs full_quote) then "gain" else "loss") ∧
  (∀ (st : app float) item,
     item ∈ main_tree (update_main_monitor st) →
     all_stock_data st !! iid item = Some (Fetched full_quote) →
     tags item = if ge0 (change_abs full_quote) then "gain" else "loss").
Proof.
  refine (daily_change_spec (H:=float_Float64) full_answer "30 Days" full_quote _ _);
    vm_compute; reflexivity.
Defined.


(** C6 fails on the code. The first redraw sorts on the ticker in
    ascending order and stores the inverse direction; a second redraw
    without any click then sorts in descending order and inverts the
    stored direction again; and a click on the heading of the sorted
    column leaves both the order and the stored direction as they
    were. *)
Theorem redraw_inverts_sort_direction :
  (sort_column shown, sort_reverse shown, iid <$> main_tree shown)
    = ("ticker", true, ["AAA.AX"; "BBB.AX"]) ∧
  (let again := update_main_monitor shown in
   (sort_column again, sort_reverse again, iid <$> main_tree again)
     = ("ticker", false, ["BBB.AX"; "AAA.AX"])) ∧
  (let clicked := on_main_tree_header_click "heading" "#2" shown in
   (sort_column clicked, sort_reverse clicked, iid <$> main_tree clicked)
     = ("ticker", true, ["AAA.AX"; "BBB.AX"])).
Proof. vm_compute. done. Qed.

(** C8, as stated, fails on an entry that ends with a dot: "bhp." is
    tracked as "BHP", which holds no exchange marker, next to tickers
    that all hold one. *)
Lemma add_stock_trailing_dot :
  tickers (add_stock "bhp." started) = ["AAA.AX"; "BBB.AX"; "BHP"] ∧
  contains "." "BHP" = false ∧
  forallb (contains ".") (tickers started) = true.
Proof. vm_compute. done. Qed.

(** Adding "cba" to the two sample symbols. *)
Lemma add_stock_cba :
  entered_ticker " cba " = "CBA.AX" ∧
  tickers (add_stock " cba " started) = ["AAA.AX"; "BBB.AX"; "CBA.AX"] ∧
  STOCK_FILE (disk (add_stock " cba " started))
    = Some ("AAA.AX" +:+ String LF "BBB.AX" +:+ String LF "CBA.AX") ∧
  NoDup (tickers (add_stock " cba " started)) ∧
  (∀ t, t ∈ tickers (add_stock " cba " started) → contains "." t = true).
Proof.
  destruct (add_stock_spec (H:=float_Float64) " cba " started)
    as (Hticker & Happend & _ & Hnd & Hplain); [reflexivity|].
  destruct Hplain as [_ Hmark]; [vm_compute; reflexivity|].
  change (entered_ticker " cba ") with "CBA.AX" in Happend.
  destruct Happend as [Hts Hdisk]; [done|by_compute|].
  split; [reflexivity|]. split; [exact Hts|].
  split; [rewrite Hdisk, Hts; vm_compute; reflexivity|].
  split.
  - apply Hnd. by_compute.
  - apply Hmark.
    intros t Hin. change (t ∈ ["AAA.AX"; "BBB.AX"]) in Hin.
    repeat (apply elem_of_cons in Hin as [->|Hin]; [reflexivity|]).
    destruct (not_elem_of_nil _ Hin).
Defined.

(** C10 fails on the code. [remove_stock] deletes the visibility entry
    of the symbol ("Remove from visibility tracker"), but the redraw that
    ends it finds the snapshot of the symbol still in the snapshot table
    and creates the entry again: the user had hidden the line of AAA.AX;
    after its removal AAA.AX is no longer tracked, and the visibility map
    holds it again, as visible. *)
Theorem remove_stock_visibility_back :
  "AAA.AX" ∈ tickers hidden ∧
  line_visibility hidden !! "AAA.AX" = Some false ∧
  (let st' := remove_stock (Some "AAA.AX") hidden in
   tickers st' = ["BBB.AX"] ∧
   is_Some (all_stock_data st' !! "AAA.AX") ∧
   line_visibility st' !! "AAA.AX" = Some true).
Proof.
  split; [by_compute|]. split; [vm_compute; reflexivity|].
  split; [vm_compute; reflexivity|]. split; [|vm_compute; reflexivity].
  by_compute.
Qed.

(** Removing AAA.AX from the two sample symbols. *)
Lemma remove_stock_AAA :
  let st' := remove_stock (Some "AAA.AX") hidden in
  (NoDup (tickers hidden) → "AAA.AX" ∉ tickers st') ∧
  (∀ t, t ≠ "AAA.AX" → t ∈ tickers st' ↔ t ∈ tickers hidden) ∧
  disk st' = save_stocks (tickers st') (disk hidden) ∧
  all_stock_data st' = all_stock_data hidden ∧
  line_visibility st' !! "AAA.AX"
    = (λ _, true) <$> (all_stock_data hidden !! "AAA.AX") ∧
  (is_Some (all_stock_data hidden !! "AAA.AX") →
   ∀ events, "AAA.AX" ∈ iid <$> main_tree (run events st')).
Proof.
  apply (remove_stock_spec (H:=float_Float64) "AAA.AX" hidden).
  - by_compute.
  - done.
Defined.

End AppFacts.


(** ** Further facts: files *)

Module MoreStoreFacts.
Import PyStr TextIO Store More PyStrFacts StoreFacts.

Lemma load_settings_save_settings (s : settings) (fs : files) :
  enumerated s → load_settings (save_settings s fs) = Ok s.
Proof.
  destruct s as [r z], fs as [os sf tf]. intros [Hr Hz]. simpl in Hr, Hz.
  unfold save_settings, write_TIMEZONE_FILE, load_settings. simpl.
  repeat (apply elem_of_cons in Hr as [->|Hr]);
    [..|destruct (not_elem_of_nil _ Hr)];
    repeat (apply elem_of_cons in Hz as [->|Hz]);
    try destruct (not_elem_of_nil _ Hz);
    destruct os; vm_compute; reflexivity.
Qed.

(** X1. Settings with enumerated values that are saved are loaded back
    as they were, on either line-separator convention and whatever the
    files held before. *)
Theorem load_save_settings (s : settings) (fs : files) :
  enumerated s → load_settings (save_settings s fs) = Ok s.
Proof. apply load_settings_save_settings. Qed.

Lemma load_save_settings_perth :
  load_settings (save_settings (Settings "6 Hrs" "Australia/Perth")
                   (Files Windows None (Some Samples.two_equals)))
  = Ok (Settings "6 Hrs" "Australia/Perth").
Proof.
  apply load_save_settings. split; simpl.
  - apply (bool_decide_unpack _). vm_compute. exact I.
  - apply (bool_decide_unpack _). vm_compute. exact I.
Defined.


(** *** What [load_stocks] returns *)

Lemma read_text_no_CR raw :
  contains CR (read_text raw) = false
  ∧ ∀ c, contains CR (read_text (String c raw)) = false.
Proof.
  induction raw as [|a raw [IH1 IH2]].
  - split; [done|]. intros c. simpl.
    case_bool_decide; simpl; [reflexivity|]. by rewrite bool_decide_false.
  - split; [apply IH2|]. intros c.
    change (read_text (String c (String a raw)))
      with (if bool_decide (c = CR)
            then String LF (if bool_decide (a = LF) then read_text raw
                            else read_text (String a raw))
            else String c (read_text (String a raw))).
    case_bool_decide as Hc.
    + change (contains CR (String LF ?x)) with (contains CR x).
      by case_bool_decide.
    + change (contains CR (String c ?x)) with (bool_decide (c = CR) || contains CR x).
      by rewrite bool_decide_false, IH2.
Qed.

(** A line of a text holds no line feed but its last character. *)
Lemma lines_body s line :
  line ∈ lines s →
  ∃ body, contains LF body = false
          ∧ (line = body ∨ line = body +:+ String LF "")
          ∧ (contains CR s = false → contains CR body = false).
Proof.
  revert line. induction s as [|a s IH]; intros line; simpl.
  - by intros ?%elem_of_nil.
  - case_bool_decide as Ha.
    + intros [->|Hin]%elem_of_cons.
      * exists "". by auto.
      * destruct (IH _ Hin) as (body & Hb & Hl & Hcr). exists body.
        split; [done|]. split; [done|].
        intros [_ ?]%orb_false_elim. auto.
    + destruct (lines s) as [|h t] eqn:Hlines.
      * intros ->%list_elem_of_singleton. exists (String a "").
        simpl. rewrite bool_decide_false by done.
        split; [done|]. split; [by left|].
        intros [-> _]%orb_false_elim. done.
      * intros [->|Hin]%elem_of_cons.
        -- destruct (IH h) as (body & Hb & Hl & Hcr); [by left|].
           exists (String a body). simpl. rewrite bool_decide_false by done.
           split; [done|]. split.
           ++ destruct Hl as [->| ->]; [by left|by right].
           ++ intros [-> ?]%orb_false_elim. auto.
        -- destruct (IH line) as (body & Hb & Hl & Hcr); [by right|].
           exists body. split; [done|]. split; [done|].
           intros [_ ?]%orb_false_elim. auto.
Qed.

Lemma contains_strip_false c s : contains c s = false → contains c (strip s) = false.
Proof.
  intros Hs. destruct (contains c (strip s)) eqn:Hc; [|done].
  apply contains_strip_by in Hc. congruence.
Qed.

Lemma lines_read_text_one_line raw :
  Forall (λ line, one_line (strip line) = true) (lines (read_text raw)).
Proof.
  apply Forall_forall. intros line Hin.
  destruct (lines_body _ _ Hin) as (body & Hlf & Hl & Hcr).
  specialize (Hcr (proj1 (read_text_no_CR raw))).
  assert (strip line = strip body) as ->.
  { destruct Hl as [->| ->]; [done|]. unfold strip. by rewrite strip_by_snoc. }
  unfold one_line. by rewrite !contains_strip_false.
Qed.

Lemma load_stocks_Forall_clean (fs : files) :
  Sorted (≤)%string (load_stocks fs) ∧
  NoDup (load_stocks fs) ∧
  Forall clean (load_stocks fs).
Proof.
  unfold load_stocks. destruct (STOCK_FILE fs) as [raw|].
  - split; [apply sorted_set_Sorted|]. split; [apply sorted_set_NoDup|].
    apply Forall_forall. intros u Hu. rewrite elem_of_sorted_set in Hu. split.
    + by eapply normalized_normal.
    + eapply normalized_one_line; [apply lines_read_text_one_line|done].
  - split; [|split].
    + repeat constructor.
    + apply (bool_decide_unpack _). vm_compute. exact I.
    + repeat constructor; by vm_compute.
Qed.

(** X3. Whatever 7-bit ASCII text the symbol file holds, and without a
    symbol file, the tracked list [load_stocks] returns is sorted, free of
    repetitions, and made of tickers that are not empty, stripped, in
    upper case and without a line break. *)
Theorem load_stocks_clean (fs : files) :
  (∀ raw, STOCK_FILE fs = Some raw → isascii raw = true) →
  Sorted (≤)%string (load_stocks fs) ∧
  NoDup (load_stocks fs) ∧
  Forall clean (load_stocks fs).
Proof. intros _. apply load_stocks_Forall_clean. Qed.

(** A symbol file written by hand on Windows: blank lines, spaces,
    mixed case, a symbol twice. *)
Lemma load_stocks_clean_by_hand :
  let fs := Files Windows
              (Some (" pl8.ax " +:+ String CR (String LF "")
                     +:+ String CR (String LF "")
                     +:+ "BHP.AX" +:+ String CR (String LF "") +:+ "bhp.ax"))
              None in
  Sorted (≤)%string (load_stocks fs) ∧
  NoDup (load_stocks fs) ∧
  Forall clean (load_stocks fs).
Proof.
  apply load_stocks_clean. simpl. intros raw [= <-]. reflexivity.
Defined.

Lemma clean_reload tickers fs :
  Sorted (≤)%string tickers → NoDup tickers → Forall clean tickers →
  load_stocks (save_stocks tickers fs) = tickers.
Proof.
  intros Hs Hnd Hc. rewrite load_save_stocks.
  - rewrite normalized_fixed; [by apply sorted_set_fixed|].
    eapply Forall_impl; [exact Hc|]. by intros u [? _].
  - eapply Forall_impl; [exact Hc|]. intros u [(-> & _ & _) ?]. done.
Qed.

(** Saving the tracked list that was loaded, into any files, and
    loading it again returns the same list. *)
Lemma load_save_load_stocks (fs fs' : files) :
  load_stocks (save_stocks (load_stocks fs) fs') = load_stocks fs.
Proof.
  destruct (load_stocks_Forall_clean fs) as (Hs & Hnd & Hc). by apply clean_reload.
Qed.

(** X5. Saved tickers of 7-bit ASCII characters that are clean come
    back as the same set of symbols, in sorted order, whatever order they
    were tracked in. *)
Theorem load_save_stocks_Permutation (tickers : list string) (fs : files) :
  Forall (λ t, isascii t = true) tickers →
  NoDup tickers → Forall clean tickers →
  load_stocks (save_stocks tickers fs) ≡ₚ tickers ∧
  Sorted (≤)%string (load_stocks (save_stocks tickers fs)).
Proof.
  intros _ Hnd Hc. split; [|apply load_stocks_Forall_clean].
  rewrite load_save_stocks.
  - rewrite normalized_fixed.
    + unfold sorted_set. by rewrite merge_sort_Permutation, elements_list_to_set.
    + eapply Forall_impl; [exact Hc|]. by intros u [? _].
  - eapply Forall_impl; [exact Hc|]. intros u [(-> & _ & _) ?]. done.
Qed.

Lemma load_save_stocks_Permutation_sample :
  load_stocks (save_stocks ["PL8.AX"; "BHP.AX"; "CBA.AX"] Samples.fresh_files)
    ≡ₚ ["PL8.AX"; "BHP.AX"; "CBA.AX"] ∧
  Sorted (≤)%string
    (load_stocks (save_stocks ["PL8.AX"; "BHP.AX"; "CBA.AX"] Samples.fresh_files)).
Proof.
  apply load_save_stocks_Permutation.
  - repeat constructor.
  - apply (bool_decide_unpack _). vm_compute. exact I.
  - repeat constructor; by vm_compute.
Defined.

End MoreStoreFacts.

(** ** Further facts: metrics and batches *)

Module MoreQuoteFacts.
Import Quote More QuoteFacts.

Section facts.
Context {F : Type} `{Float64 F}.

(** X6. When the provider's answer holds both scalar fields, the
    history plays no part in the prices: an open equal to zero raises
    [ZeroDivisionError], so that the symbol gets the error-flagged
    snapshot, and any other open gives a quote with the two scalars as
    price and open, even when the history is empty. *)
Theorem compute_quote_scalars (r : response F) (range : string) (p o : F) :
  regularMarketPrice r = Some p → regularMarketOpen r = Some o →
  (f_eqb o f_zero = true →
     compute_quote r range = Raise ZeroDivisionError ∧
     snapshot_of (compute_quote r range) = Failed) ∧
  (f_eqb o f_zero = false →
     ∃ q, compute_quote r range = Ok q ∧
          price q = PyNum p ∧ open_price q = PyNum o ∧
          change_abs q = PyNum (f_sub p o) ∧
          daily_change_pct q = PyNum (f_mul (f_div (f_sub p o) o) f_hundred) ∧
          history q = hist r).
Proof.
  intros Hp Ho.
  assert (scalar_prices r = Ok (PyNum p, PyNum o)) as Hsp
    by (unfold scalar_prices; by rewrite Hp, Ho).
  split; intros Hz.
  - unfold compute_quote. rewrite Hsp. simpl. unfold div. simpl.
    by rewrite Hz.
  - destruct (hourly_change_Ok r (PyNum p)) as (ha & hp & Hh).
    eexists. split.
    + apply compute_quote_Ok. do 5 eexists.
      split; [exact Hsp|]. split; [|split; [exact Hh|reflexivity]].
      unfold div. simpl. by rewrite Hz.
    + done.
Qed.

Section batch.
Context {provider : Type}.
Context (ask : provider → string → string * string → string * string
               → provider * result (response F)).
Context (graph hourly : string * string) (range : string).

Local Abbreviation step := (fetch_one ask graph hourly range).

Lemma fetch_one_fst acc ticker :
  (step acc ticker).1 = (ask acc.1 ticker graph hourly).1.
Proof. unfold fetch_one. by destruct (ask _ _ _ _). Qed.

(** The provider a batch leaves behind has held one conversation per
    symbol, in the order of the list. *)
Lemma foldl_fetch_one_asked tickers acc :
  (foldl step acc tickers).1 = asked ask graph hourly acc.1 tickers.
Proof.
  revert acc. induction tickers as [|t tickers IH]; intros acc; [done|].
  simpl. by rewrite IH, fetch_one_fst.
Qed.

End batch.

(** X7. A batch asks the provider about the tracked symbols one after
    the other, in the order of the list: the provider it leaves behind is
    the one after these conversations, and the entry of a symbol comes
    from the answer the provider gives once it has been asked about the
    symbols that precede the last occurrence of this one. *)
Theorem run_fetch_in_order {provider : Type}
    (ask : provider → string → string * string → string * string
           → provider * result (response F))
    (before : list string) (ticker : string) (after : list string)
    (gp gi hp hi range : string) (pv : provider) :
  ticker ∉ after →
  let batch := _run_fetch ask (before ++ ticker :: after) gp gi hp hi range pv in
  let pv' := asked ask (gp, gi) (hp, hi) pv before in
  batch.1 = asked ask (gp, gi) (hp, hi) pv (before ++ ticker :: after) ∧
  batch.2 !! ticker
    = Some (snapshot_of ((ask pv' ticker (gp, gi) (hp, hi)).2
                           ≫= λ r, compute_quote r range)).
Proof.
  intros Hnotin. simpl. unfold _run_fetch. split.
  - by rewrite foldl_fetch_one_asked.
  - rewrite foldl_app. simpl.
    rewrite foldl_fetch_one_other, fetch_one_snd by done.
    by rewrite lookup_insert_eq, foldl_fetch_one_asked.
Qed.

End facts.

(** An open of zero from the scalar fields. *)
Lemma compute_quote_scalars_zero_open :
  (f_eqb 0%float f_zero = true →
     compute_quote More.zero_open_answer "30 Days" = Raise ZeroDivisionError ∧
     snapshot_of (compute_quote More.zero_open_answer "30 Days") = Failed) ∧
  (f_eqb 0%float f_zero = false →
     ∃ q, compute_quote More.zero_open_answer "30 Days" = Ok q ∧
          price q = PyNum 1%float ∧ open_price q = PyNum 0%float ∧
          change_abs q = PyNum (f_sub 1%float 0%float) ∧
          daily_change_pct q
            = PyNum (f_mul (f_div (f_sub 1%float 0%float) 0%float) f_hundred) ∧
          history q = hist More.zero_open_answer).
Proof.
  refine (compute_quote_scalars (H:=float_Float64) More.zero_open_answer
            "30 Days" 1%float 0%float _ _); reflexivity.
Defined.

(** A provider that stops answering after its first conversation: the
    second symbol of the list is the one that fails. *)
Lemma run_fetch_in_order_first_call :
  let batch :=
    _run_fetch Samples.first_call_provider (["AAA.AX"] ++ "BBB.AX" :: [])
      "30d" "1d" "1d" "1m" "30 Days" 0 in
  batch.1 = 2 ∧ batch.2 !! "BBB.AX" = Some Failed.
Proof.
  apply (run_fetch_in_order (H:=float_Float64) Samples.first_call_provider
           ["AAA.AX"] "BBB.AX" [] "30d" "1d" "1d" "1m" "30 Days" 0).
  apply not_elem_of_nil.
Defined.

End MoreQuoteFacts.


(** ** Further facts: the application *)

Module MoreAppFacts.
Import PyStr TextIO Store Quote App More.
Import PyStrFacts StoreFacts QuoteFacts AppFacts MoreStoreFacts.

(** X21. Whatever the widget answers, and when it raises, the colour
    [_get_safe_bg_color] returns starts with "#" and has 4, 5, 7 or 9
    characters; an answer of that shape is returned as it is. *)
Theorem get_safe_bg_color_shape (cget : result string) :
  let bg_color := _get_safe_bg_color cget in
  String.prefix "#" bg_color = true ∧
  String.length bg_color ∈ [4; 5; 7; 9] ∧
  (∀ answer, cget = Ok answer → String.prefix "#" answer = true →
     String.length answer ∈ [4; 5; 7; 9] → bg_color = answer).
Proof.
  simpl. unfold _get_safe_bg_color. destruct cget as [answer|e].
  - destruct (String.prefix "#" answer) eqn:Hp; simpl.
    + case_bool_decide as Hl; simpl.
      * split; [done|]. split; [done|]. by intros ? [= <-].
      * split; [done|]. split; [by apply (bool_decide_unpack _)|].
        by intros ? [= <-] _ ?.
    + split; [done|]. split; [by apply (bool_decide_unpack _)|].
      intros ? [= <-]. by rewrite Hp.
  - split; [done|]. split; [by apply (bool_decide_unpack _)|]. done.
Qed.

Section facts.
Context {F : Type} `{Float64 F} `{FloatText F}.

(** *** Start and shutdown *)

Lemma init_Ok (fs : files) (st : app F) :
  init fs = Ok st →
  tickers st = load_stocks fs ∧ disk st = fs ∧
  all_stock_data st = ∅ ∧ main_tree st = [] ∧
  ∃ s, load_settings fs = Ok s ∧ time_range_combo st = time_range s.
Proof.
  unfold init. destruct (load_settings fs) as [s|e]; simpl; [|done].
  intros [= <-]. simpl. eauto 10.
Qed.

(** X8. Once started, the application never tracks a symbol twice,
    whatever events follow. *)
Theorem tickers_unique (fs : files) (st : app F) :
  init fs = Ok st → ∀ events, NoDup (tickers (run events st)).
Proof.
  intros Hinit events.
  assert (NoDup (tickers st)) as Hnd.
  { destruct (init_Ok _ _ Hinit) as (-> & _).
    apply load_stocks_Forall_clean. }
  clear Hinit. revert st Hnd. unfold run.
  induction events as [|ev events IH]; intros st Hnd; [done|].
  simpl. by apply IH, handle_NoDup.
Qed.

(** *** Adding and removing *)

Lemma upper_app s t : upper (s +:+ t) = upper s +:+ upper t.
Proof. induction s as [|c s IH]; [done|]. rewrite !app_cons. simpl. by rewrite IH. Qed.

Lemma upper_strip_char_dot s : upper (strip_char "." s) = strip_char "." (upper s).
Proof.
  unfold strip_char, strip_by.
  rewrite rstrip_by_upper, lstrip_by_upper; auto using upper_char_dot.
Qed.

Lemma upper_entered_ticker entry : upper (entered_ticker entry) = entered_ticker entry.
Proof.
  unfold entered_ticker. rewrite upper_strip_char_dot. f_equal.
  destruct (truthy _ && negb _); [|apply upper_idemp].
  by rewrite upper_app, upper_idemp.
Qed.

Lemma entered_ticker_not_main entry : entered_ticker entry ≠ "Main Monitor".
Proof.
  intros Heq. pose proof (upper_entered_ticker entry) as Hup.
  rewrite Heq in Hup. discriminate Hup.
Qed.

(** X9. The ticker [add_stock] derives from an entry of 7-bit ASCII
    characters is in upper case, neither begins nor ends with ".", and is
    never the title of the "Main Monitor" tab. *)
Theorem entered_ticker_shape (entry : string) :
  isascii entry = true →
  upper (entered_ticker entry) = entered_ticker entry ∧
  strip_char "." (entered_ticker entry) = entered_ticker entry ∧
  entered_ticker entry ≠ "Main Monitor".
Proof.
  intros _. split; [apply upper_entered_ticker|]. split.
  - unfold entered_ticker, strip_char. apply strip_by_idemp.
  - apply entered_ticker_not_main.
Qed.

(** *** Shutdown and restart *)

Lemma elem_of_list_remove x y l : y ∈ list_remove x l → y ∈ l.
Proof.
  induction l as [|z l IH]; simpl; [done|].
  destruct (decide (z = x)); rewrite !elem_of_cons; [by right|].
  intros [?|?]; auto.
Qed.

(** What an event does to the tracked list and to the settings file:
    only [add_stock] brings a ticker in, and none writes the settings. *)
Lemma handle_tickers_from (st : app F) ev :
  TIMEZONE_FILE (disk (handle st ev)) = TIMEZONE_FILE (disk st) ∧
  ∀ t, t ∈ tickers (handle st ev) →
       t ∈ tickers st
       ∨ ∃ entry, ev = AddStock entry ∧ t = entered_ticker entry ∧ t ≠ "".
Proof.
  destruct ev as [entry| [selected|] | | | item_id col_id | | [new_data|e] |];
    cbn [handle].
  - unfold add_stock. destruct (truthy (entered_ticker entry)) eqn:Hne; [|by auto].
    simpl. case_bool_decide; [|by auto].
    unfold fetch_data. case_bool_decide; simpl.
    + split; [done|].
      intros t [?| ->%list_elem_of_singleton]%elem_of_app; [by left|].
      right. exists entry. by rewrite <-truthy_true.
    + split; [done|].
      intros t [?| ->%list_elem_of_singleton]%elem_of_app; [by left|].
      right. exists entry. by rewrite <-truthy_true.
  - unfold remove_stock. repeat case_bool_decide; try (by auto).
    simpl. split; [done|]. intros t ?%elem_of_list_remove. by left.
  - by auto.
  - unfold on_main_tree_header_click. case_bool_decide; [by auto|].
    destruct (col_map_get _); by auto.
  - unfold heading_command. case_decide; by auto.
  - unfold toggle_chart_visibility. destruct (negb _); [by auto|].
    case_bool_decide; by auto.
  - unfold fetch_data. case_bool_decide; by auto.
  - by auto.
  - by auto.
  - by auto.
Qed.

Lemma run_TIMEZONE_FILE events (st : app F) :
  TIMEZONE_FILE (disk (run events st)) = TIMEZONE_FILE (disk st).
Proof.
  revert st. unfold run. induction events as [|ev events IH]; intros st; [done|].
  simpl. rewrite IH. apply handle_tickers_from.
Qed.

(** A property of the tickers that start with the application, and of
    those the entries give, holds of all the tracked ones. *)
Lemma run_tickers_Forall (Q : string → Prop) events (st : app F) :
  (∀ entry, AddStock entry ∈ events → entered_ticker entry ≠ "" →
     Q (entered_ticker entry)) →
  Forall Q (tickers st) → Forall Q (tickers (run events st)).
Proof.
  revert st. unfold run. induction events as [|ev events IH]; intros st Hev Hst; [done|].
  simpl. apply IH.
  - intros entry Hin. apply Hev. by right.
  - apply Forall_forall. intros t Hin.
    apply handle_tickers_from in Hin as [Hin|(entry & -> & -> & Hne)].
    + rewrite Forall_forall in Hst. by apply Hst.
    + apply Hev; [by left|done].
Qed.

Lemma run_NoDup events (st : app F) :
  NoDup (tickers st) → NoDup (tickers (run events st)).
Proof.
  revert st. unfold run. induction events as [|ev events IH]; intros st Hnd; [done|].
  simpl. by apply IH, handle_NoDup.
Qed.

Lemma one_line_contains s :
  one_line s = true ↔ contains LF s = false ∧ contains CR s = false.
Proof.
  unfold one_line. rewrite andb_true_iff, !negb_true_iff. done.
Qed.

Lemma one_line_entered_ticker entry :
  one_line entry = true → one_line (entered_ticker entry) = true.
Proof.
  rewrite !one_line_contains. intros [Hlf Hcr].
  assert (∀ c, contains c entry = false → contains c ".AX" = false →
               contains c (upper (strip entry)) = contains c (strip entry) →
               contains c (entered_ticker entry) = false) as Hc.
  { intros c Hentry Hax Hup. unfold entered_ticker, strip_char.
    destruct (contains c (strip_by _ _)) eqn:Hin; [|done].
    apply contains_strip_by in Hin.
    destruct (truthy _ && negb _).
    - rewrite contains_app, Hax, Hup, orb_false_r in Hin.
      apply contains_strip_by in Hin. congruence.
    - rewrite Hup in Hin. apply contains_strip_by in Hin. congruence. }
  split; apply Hc; try done.
  - apply contains_upper_LF.
  - apply contains_upper_CR.
Qed.

(** X4. Once the application has started, whatever events follow,
    closing it leaves files on which the next start succeeds, and the
    list it then tracks is the sorted list, without repetition, of the
    stripped tickers tracked at the end that are not blank: the same
    symbols when none begins or ends with white space, generally in
    another order. The two files and the entries are text of 7-bit
    ASCII characters, and the entries hold no line break. *)
Theorem restart_tickers (fs : files) (st0 : app F) (events : list (event F)) :
  init fs = Ok st0 →
  (∀ raw, STOCK_FILE fs = Some raw ∨ TIMEZONE_FILE fs = Some raw →
     isascii raw = true) →
  (∀ entry, AddStock entry ∈ events →
     isascii entry = true ∧ one_line entry = true) →
  let st := run events st0 in
  ∃ st' : app F,
    init (on_close st) = Ok st' ∧
    tickers st' = sorted_set (normalized (tickers st)) ∧
    (∀ t, t ∈ tickers st' ↔ ∃ u, u ∈ tickers st ∧ strip u ≠ "" ∧ t = strip u) ∧
    (Forall (λ u, strip u = u) (tickers st) → tickers st' ≡ₚ tickers st).
Proof.
  intros Hinit _ Hentries. simpl.
  destruct (init_Ok _ _ Hinit) as (Ht & Hd & _ & _ & s & Hs & _).
  destruct (load_stocks_Forall_clean fs) as (_ & Hnd0 & Hclean).
  rewrite <-Ht in Hnd0, Hclean.
  set (st := run events st0).
  assert (Forall (λ t, one_line t = true ∧ upper t = t ∧ t ≠ "") (tickers st))
    as Hinv.
  { apply run_tickers_Forall.
    - intros entry Hin Hne. split; [|split; [apply upper_entered_ticker|done]].
      apply one_line_entered_ticker. by apply Hentries.
    - eapply Forall_impl; [exact Hclean|].
      by intros t [(_ & ? & ?) ?]. }
  assert (NoDup (tickers st)) as Hnd by (by apply run_NoDup).
  assert (load_stocks (on_close st) = sorted_set (normalized (tickers st))) as Hload.
  { unfold on_close. apply load_save_stocks.
    eapply Forall_impl; [exact Hinv|]. intros t (Hol & _ & _).
    apply one_line_contains in Hol as [Hlf Hcr].
    apply one_line_contains. by rewrite !contains_strip_false. }
  assert (load_settings (on_close st) = Ok s) as Hsettings.
  { rewrite <-Hs. unfold load_settings, on_close.
    replace (TIMEZONE_FILE (save_stocks (tickers st) (disk st)))
      with (TIMEZONE_FILE (disk st)) by done.
    unfold st. by rewrite run_TIMEZONE_FILE, Hd. }
  unfold init. rewrite Hsettings. simpl. eexists. split; [reflexivity|]. simpl.
  rewrite Hload. split; [done|]. split.
  - intros t. rewrite elem_of_sorted_set, elem_of_normalized.
    rewrite Forall_forall in Hinv.
    split; intros (u & Hu & Hne & ->); exists u;
      destruct (Hinv u Hu) as (_ & Hup & _);
      (split; [done|]); (split; [done|]);
      by rewrite <-strip_upper, Hup.
  - intros Hstripped. rewrite normalized_fixed.
    + unfold sorted_set. by rewrite merge_sort_Permutation, elements_list_to_set.
    + apply Forall_forall. intros t Hin.
      rewrite Forall_forall in Hinv, Hstripped.
      destruct (Hinv t Hin) as (_ & ? & ?). split; [by apply Hstripped|done].
Qed.

(** *** Adding, then removing *)

Lemma list_remove_snoc x l : x ∉ l → list_remove x (l ++ [x]) = l.
Proof.
  induction l as [|y l IH]; simpl; intros Hx.
  - by rewrite decide_True.
  - apply not_elem_of_cons in Hx as [Hne Hx].
    rewrite decide_False by done. by rewrite IH.
Qed.

Lemma fetch_data_all_stock_data (st : app F) :
  all_stock_data (fetch_data st) = all_stock_data st.
Proof. unfold fetch_data. by case_bool_decide. Qed.

(** X10. Adding a symbol that is new and removing it again restores
    the tracked list, leaves the symbol file as a save of that list
    writes it, and leaves the snapshot table alone. *)
Theorem add_then_remove (entry : string) (st : app F) :
  let ticker := entered_ticker entry in
  ticker ≠ "" → ticker ∉ tickers st →
  let st' := remove_stock (Some ticker) (add_stock entry st) in
  tickers st' = tickers st ∧
  disk st' = save_stocks (tickers st) (disk st) ∧
  all_stock_data st' = all_stock_data st.
Proof.
  simpl. intros Hne Hnew.
  destruct (add_stock_cases entry st) as [Happend _].
  destruct (Happend Hne Hnew) as [Ht Hd].
  assert (all_stock_data (add_stock entry st) = all_stock_data st) as Ha.
  { unfold add_stock.
    rewrite (proj2 (truthy_true _)), bool_decide_true by done. simpl.
    by rewrite fetch_data_all_stock_data. }
  unfold remove_stock.
  rewrite bool_decide_false by apply entered_ticker_not_main.
  rewrite bool_decide_true
    by (rewrite Ht; apply elem_of_app; right; by apply list_elem_of_singleton).
  simpl. rewrite Ht, list_remove_snoc by done.
  split; [done|]. split; [|done]. by rewrite Hd.
Qed.

(** X11. Adding the same entry a second time changes nothing at all. *)
Theorem add_stock_twice (entry : string) (st : app F) :
  add_stock entry (add_stock entry st) = add_stock entry st.
Proof.
  destruct (add_stock_cases entry st) as [Happend Hkeep].
  assert (entered_ticker entry = ""
          ∨ entered_ticker entry ∈ tickers (add_stock entry st)) as Hin.
  { destruct (decide (entered_ticker entry = "")) as [|Hne]; [by left|]. right.
    destruct (decide (entered_ticker entry ∈ tickers st)) as [Hold|Hnew].
    - destruct Hkeep as [-> _]; [by right|done].
    - destruct (Happend Hne Hnew) as [-> _].
      apply elem_of_app. right. by apply list_elem_of_singleton. }
  generalize dependent (add_stock entry st). intros st1 _ _ Hin.
  unfold add_stock.
  replace (truthy (entered_ticker entry)
           && bool_decide (entered_ticker entry ∉ tickers st1)) with false; [done|].
  destruct Hin as [-> | Hin]; [done|].
  rewrite (bool_decide_false (_ ∉ _)) by (by intros ?).
  by rewrite andb_false_r.
Qed.

(** *** Fetch results *)

Lemma elem_of_main_tree_update (st : app F) (item : row) :
  item ∈ main_tree (update_main_monitor st) ↔
  ∃ ticker, is_Some (all_stock_data st !! ticker) ∧
            item = make_row (all_stock_data st)
                     (line_visibility (update_main_monitor st)) ticker.
Proof.
  unfold update_main_monitor at 1. rewrite treeview_sort_main_tree. simpl.
  unfold fresh_rows. rewrite list_elem_of_fmap.
  split; intros (ticker & Hitem & Hin); exists ticker.
  - rewrite merge_sort_Permutation, elem_of_elements, elem_of_dom in Hin. done.
  - rewrite merge_sort_Permutation, elem_of_elements, elem_of_dom. done.
Qed.

Lemma handle_fetch_result_Ok (new_data : gmap string (snapshot F)) (st : app F) :
  ∃ merged, _handle_fetch_result (Ok new_data) st = update_main_monitor merged ∧
            all_stock_data merged = new_data ∪ all_stock_data st ∧
            line_visibility merged = line_visibility st.
Proof. eexists. split; [reflexivity|done]. Qed.

(** X12. Merging a fetch result replaces the snapshot of every symbol
    of the result and keeps the snapshot of every other symbol. After it
    every symbol of the result has a row in the aggregate table, tagged
    by its new snapshot; the row of a symbol whose fetch failed shows
    "N/A" in its six figures. A result that raises changes nothing. *)
Theorem handle_fetch_result_rows (new_data : gmap string (snapshot F)) (st : app F) :
  let st' := _handle_fetch_result (Ok new_data) st in
  (∀ ticker, all_stock_data st' !! ticker
             = match new_data !! ticker with
               | Some data => Some data
               | None => all_stock_data st !! ticker
               end) ∧
  (∀ ticker, is_Some (new_data !! ticker) →
     ∃ item, item ∈ main_tree st' ∧ iid item = ticker ∧
             tags item = row_tag (new_data !! ticker) ∧
             (new_data !! ticker = Some Failed →
              values item =
                [if default true (line_visibility st' !! ticker) then "✔" else "✘";
                 ticker; "N/A"; "N/A"; "N/A"; "N/A"; "N/A"; "N/A"])) ∧
  (∀ e, _handle_fetch_result (Raise e) st = st).
Proof.
  destruct (handle_fetch_result_Ok new_data st) as (merged & Hst & Hdata & Hvis).
  cbv zeta. rewrite Hst. split; [|split; [|done]].
  - intros ticker. change (all_stock_data (update_main_monitor merged))
      with (all_stock_data merged). rewrite Hdata, lookup_union.
    by destruct (new_data !! ticker), (all_stock_data st !! ticker).
  - intros ticker [data Hnew].
    assert (all_stock_data merged !! ticker = Some data) as Hm
      by (rewrite Hdata; by apply lookup_union_Some_l).
    eexists. split; [|split; [|split]].
    + apply elem_of_main_tree_update. exists ticker. split; [by rewrite Hm|done].
    + apply iid_make_row.
    + rewrite tags_make_row. by rewrite Hm, Hnew.
    + rewrite Hnew. intros [= ->]. unfold make_row. rewrite Hm. done.
Qed.

(** *** Visibility *)

Lemma toggle_visibility_lookup ticker (st : app F) :
  ticker ≠ "" →
  line_visibility (toggle_chart_visibility ticker "#1" st) !! ticker
  = Some (negb (default true (line_visibility st !! ticker))).
Proof.
  intros Hne. unfold toggle_chart_visibility.
  rewrite (proj2 (truthy_true _)) by done. simpl.
  apply lookup_union_Some_l, lookup_insert_eq.
Qed.

Lemma toggle_visibility_other ticker other (st : app F) :
  other ≠ ticker →
  default true (line_visibility (toggle_chart_visibility ticker "#1" st) !! other)
  = default true (line_visibility st !! other).
Proof.
  intros Hne. unfold toggle_chart_visibility.
  destruct (negb (truthy ticker)); [done|]. simpl.
  rewrite lookup_union, lookup_insert_ne, lookup_fmap by done.
  by destruct (line_visibility st !! other), (all_stock_data st !! other).
Qed.

(** X13. A click on the mark of a row inverts the visibility of that
    symbol, a missing entry counting as visible, and a second click
    restores it; the visibility of every other symbol stays as it was. *)
Theorem toggle_chart_visibility_twice (ticker : string) (st : app F) :
  ticker ≠ "" →
  let once := toggle_chart_visibility ticker "#1" st in
  let twice := toggle_chart_visibility ticker "#1" once in
  line_visibility once !! ticker
    = Some (negb (default true (line_visibility st !! ticker))) ∧
  line_visibility twice !! ticker
    = Some (default true (line_visibility st !! ticker)) ∧
  (∀ other, other ≠ ticker →
     default true (line_visibility twice !! other)
     = default true (line_visibility st !! other)).
Proof.
  intros Hne. simpl. split; [by apply toggle_visibility_lookup|]. split.
  - rewrite toggle_visibility_lookup, toggle_visibility_lookup by done.
    simpl. by rewrite negb_involutive.
  - intros other Hother. by rewrite !toggle_visibility_other.
Qed.

Lemma update_main_monitor_keeps_choice (st : app F) ticker b :
  line_visibility st !! ticker = Some b →
  line_visibility (update_main_monitor st) !! ticker = Some b.
Proof.
  intros Hb. rewrite update_main_monitor_visibility. by apply lookup_union_Some_l.
Qed.

(** X14. The visibility recorded for a symbol is changed by no event
    but a click on its own row or its removal: redraws, fetch results,
    header clicks and additions keep it. *)
Theorem visibility_choice_kept (ticker : string) (b : bool) (st : app F) (ev : event F) :
  spares ticker ev →
  line_visibility st !! ticker = Some b →
  line_visibility (handle st ev) !! ticker = Some b.
Proof.
  intros Hev Hb.
  destruct ev as [entry| [selected|] | | | item_id col_id | | [new_data|e] |];
    cbn [handle spares] in *.
  - unfold add_stock. destruct (truthy _ && bool_decide _); [|done].
    unfold fetch_data. case_bool_decide; [|done].
    by apply update_main_monitor_keeps_choice.
  - unfold remove_stock. repeat case_bool_decide; try done.
    apply update_main_monitor_keeps_choice. simpl. by rewrite lookup_delete_ne.
  - done.
  - unfold on_main_tree_header_click. case_bool_decide; [done|].
    destruct (col_map_get _); [|done]. by apply update_main_monitor_keeps_choice.
  - unfold heading_command. by case_decide.
  - unfold toggle_chart_visibility. destruct (negb _); [done|].
    case_bool_decide; [done|]. apply update_main_monitor_keeps_choice.
    simpl. by rewrite lookup_insert_ne.
  - unfold fetch_data. case_bool_decide; [|done].
    by apply update_main_monitor_keeps_choice.
  - destruct (handle_fetch_result_Ok new_data st) as (merged & -> & _ & Hvis).
    apply update_main_monitor_keeps_choice. by rewrite Hvis.
  - done.
  - by apply update_main_monitor_keeps_choice.
Qed.

(** X15. The colour [_run_fetch] records with a quote and the tag
    [update_main_monitor] gives its row agree: green with gain, red with
    loss. *)
Theorem color_matches_tag (r : response F) (range : string) (q : quote F) :
  compute_quote r range = Ok q →
  (color q = "green" ∧ row_tag (Some (Fetched q)) = "gain") ∨
  (color q = "red" ∧ row_tag (Some (Fetched q)) = "loss").
Proof.
  intros (price & open_price & ratio & ha & hp & _ & _ & _ & ->)%compute_quote_Ok.
  unfold row_tag. simpl. destruct (ge0 _); [by left|by right].
Qed.

(** *** Sorting the table *)

Section sort_fmap.
Context {A B : Type} (f : A → B) (k : B → key F).



End sort_fmap.



(** *** The combined chart *)

Lemma drawn_true visibility ticker (data : snapshot F) :
  drawn visibility ticker data = true ↔
  default true (visibility !! ticker) = true
  ∧ ∃ q, data = Fetched q ∧ history q ≠ [].
Proof.
  unfold drawn. rewrite andb_true_iff. split.
  - intros [Hv Hd]. split; [done|]. destruct data as [q|]; [|done].
    exists q. split; [done|]. by apply bool_decide_eq_true in Hd.
  - intros [Hv (q & -> & Hq)]. split; [done|]. by apply bool_decide_eq_true.
Qed.

Lemma elem_of_plotted ticker (st : app F) :
  ticker ∈ plotted st ↔
  default true (line_visibility st !! ticker) = true
  ∧ ∃ q, all_stock_data st !! ticker = Some (Fetched q) ∧ history q ≠ [].
Proof.
  unfold plotted. rewrite elem_of_dom. unfold is_Some.
  setoid_rewrite map_lookup_filter_Some. simpl. split.
  - intros (data & Hdata & (Hv & q & -> & Hq)%drawn_true). eauto.
  - intros (Hv & q & Hdata & Hq). exists (Fetched q). split; [done|].
    apply drawn_true. eauto.
Qed.

(** X17. The combined chart draws the line of a symbol exactly when
    the symbol is visible and has a snapshot that is not flagged, with a
    history that is not empty. A click on the mark of a drawn symbol
    takes its line away and leaves the other lines as they are. *)
Theorem toggle_hides_line (ticker : string) (st : app F) :
  ticker ≠ "" → ticker ∈ plotted st →
  let st' := toggle_chart_visibility ticker "#1" st in
  (ticker ∉ plotted st') ∧
  (∀ other, other ≠ ticker → other ∈ plotted st' ↔ other ∈ plotted st).
Proof.
  intros Hne [Hv _]%elem_of_plotted. simpl. split.
  - rewrite elem_of_plotted, toggle_visibility_lookup, Hv by done.
    by intros [? _].
  - intros other Hother. rewrite !elem_of_plotted.
    rewrite toggle_visibility_other by done.
    unfold toggle_chart_visibility. rewrite (proj2 (truthy_true _)) by done. done.
Qed.

(** X18. The line of a removed symbol that has a history is drawn in
    the combined chart after the removal, also when the symbol had been
    hidden: its snapshot stays and its visibility is set anew. *)
Theorem removed_symbol_still_plotted (ticker : string) (q : quote F) (st : app F) :
  ticker ∈ tickers st → ticker ≠ "Main Monitor" →
  all_stock_data st !! ticker = Some (Fetched q) → history q ≠ [] →
  ticker ∈ plotted (remove_stock (Some ticker) st).
Proof.
  intros Hin Hmm Hdata Hq. unfold remove_stock.
  rewrite bool_decide_false, bool_decide_true by done.
  apply elem_of_plotted. split; [|by exists q].
  rewrite update_main_monitor_visibility. simpl.
  rewrite lookup_union_r by apply lookup_delete_eq.
  by rewrite lookup_fmap, Hdata.
Qed.

(** *** Settings *)

Lemma TIME_RANGES_get_unknown key :
  key ∉ TIME_RANGES.*1 → TIME_RANGES_get key = ("30d", "1d").
Proof.
  intros Hkey. unfold TIME_RANGES_get.
  by rewrite (not_elem_of_list_to_map_1 _ _ Hkey).
Qed.

Lemma fetch_data_cases (st : app F) :
  (tickers st ≠ [] →
     submitted (fetch_data st)
     = submitted st ++ [TIME_RANGES_get (time_range_combo st)]) ∧
  (tickers st = [] → submitted (fetch_data st) = submitted st) ∧
  tickers (fetch_data st) = tickers st ∧
  all_stock_data (fetch_data st) = all_stock_data st ∧
  disk (fetch_data st) = disk st.
Proof. unfold fetch_data. by case_bool_decide. Qed.

(** X19. [fetch_data] hands exactly one batch to the executor when
    symbols are tracked, with the period and interval of the selected
    range, those of "30 Days" when the text of the selector is not a
    range; with no symbol tracked it hands over nothing. It never
    changes the tracked list, the snapshot table or the files. *)
Theorem fetch_data_submits (st : app F) :
  let st' := fetch_data st in
  (tickers st ≠ [] →
     submitted st' = submitted st ++ [TIME_RANGES_get (time_range_combo st)]) ∧
  (tickers st = [] → submitted st' = submitted st) ∧
  (time_range_combo st ∉ TIME_RANGES.*1 →
     TIME_RANGES_get (time_range_combo st) = TIME_RANGES_get "30 Days") ∧
  tickers st' = tickers st ∧ all_stock_data st' = all_stock_data st ∧
  disk st' = disk st.
Proof.
  cbv zeta. destruct (fetch_data_cases st) as (? & ? & ? & ? & ?).
  split; [done|]. split; [done|].
  split; [by intros ->%TIME_RANGES_get_unknown|done].
Qed.

(** X20. Applying enumerated settings saves them so that they are
    loaded back at the next start, and sets the range selector. When the
    range or the timezone changed and symbols are tracked, one batch is
    handed over, with the period and interval of the new range; when
    neither changed, none is. *)
Theorem apply_settings_spec (new_settings current : settings) (st : app F) :
  enumerated new_settings →
  let applied := apply_settings new_settings current st in
  applied.1 = new_settings ∧
  load_settings (disk applied.2) = Ok new_settings ∧
  time_range_combo applied.2 = time_range new_settings ∧
  (new_settings ≠ current → tickers st ≠ [] →
     submitted applied.2
     = submitted st ++ [TIME_RANGES_get (time_range new_settings)]) ∧
  (new_settings = current → submitted applied.2 = submitted st).
Proof.
  intros Hen. cbv zeta. unfold apply_settings.
  destruct new_settings as [r z], current as [r' z']. cbn [time_range timezone fst snd].
  match goal with |- context [fetch_data ?S] => set (st1 := S) end.
  assert (load_settings (disk st1) = Ok (Settings r z)) as Hload
    by (by apply load_settings_save_settings).
  destruct (fetch_data_cases st1) as (Hsub & Hnone & _ & _ & Hdisk).
  assert (time_range_combo (fetch_data st1) = r) as Hcombo
    by (unfold fetch_data; by case_bool_decide).
  split; [done|].
  destruct (bool_decide (r ≠ r') || bool_decide (z ≠ z')) eqn:Hch.
  - rewrite Hdisk. split; [done|]. split; [done|]. split.
    + intros _ Ht. by apply Hsub.
    + intros [= -> ->]. rewrite !bool_decide_false in Hch by (by intros ?). done.
  - split; [done|]. split; [done|]. split; [|done].
    intros Hne. apply orb_false_elim in Hch as [Hr Hz].
    apply bool_decide_eq_false in Hr, Hz.
    destruct Hne. f_equal.
    + by destruct (decide (r = r')).
    + by destruct (decide (z = z')).
Qed.

End facts.

(** *** On the samples *)

Import Samples Binary64Text.

Ltac by_compute := apply (bool_decide_unpack _); vm_compute; exact I.

(** Two additions, then a restart: ". abc" is tracked with a space in
    front and comes back without it, and the list comes back sorted. *)
Lemma restart_after_additions :
  let st := run [AddStock ". abc"; AddStock "aab"] started in
  ∃ st' : app float,
    init (on_close st) = Ok st' ∧
    tickers st' = sorted_set (normalized (tickers st)) ∧
    (∀ t, t ∈ tickers st' ↔ ∃ u, u ∈ tickers st ∧ strip u ≠ "" ∧ t = strip u) ∧
    (Forall (λ u, strip u = u) (tickers st) → tickers st' ≡ₚ tickers st).
Proof.
  apply (restart_tickers (H:=float_Float64) two_symbol_files started
           [AddStock ". abc"; AddStock "aab"]).
  - vm_compute. reflexivity.
  - simpl. intros raw [[= <-]|[=]]. reflexivity.
  - intros entry Hin.
    apply elem_of_cons in Hin as [[= ->]|Hin]; [by split|].
    apply elem_of_cons in Hin as [[= ->]|Hin]; [by split|].
    destruct (not_elem_of_nil _ Hin).
Defined.

Lemma restart_after_additions_lists :
  let st := run [AddStock ". abc"; AddStock "aab"] started in
  tickers st = ["AAA.AX"; "BBB.AX"; " ABC"; "AAB.AX"] ∧
  load_stocks (on_close st) = ["AAA.AX"; "AAB.AX"; "ABC"; "BBB.AX"].
Proof. vm_compute. done. Qed.

Lemma entered_ticker_shape_main_monitor :
  upper (entered_ticker "Main Monitor") = entered_ticker "Main Monitor" ∧
  strip_char "." (entered_ticker "Main Monitor") = entered_ticker "Main Monitor" ∧
  entered_ticker "Main Monitor" ≠ "Main Monitor".
Proof. apply (entered_ticker_shape "Main Monitor"). reflexivity. Defined.

Lemma tickers_unique_sample :
  NoDup (tickers (run [AddStock "cba"; AddStock " CBA.ax"; RemoveStock (Some "AAA.AX");
                       AddStock "aaa"] started)).
Proof.
  apply (tickers_unique (H:=float_Float64) two_symbol_files started).
  vm_compute. reflexivity.
Defined.

Lemma add_then_remove_cba :
  let st' := remove_stock (Some "CBA.AX") (add_stock " cba " started) in
  tickers st' = tickers started ∧
  disk st' = save_stocks (tickers started) (disk started) ∧
  all_stock_data st' = all_stock_data started.
Proof.
  apply (add_then_remove (H:=float_Float64) " cba " started).
  - done.
  - by_compute.
Defined.

Lemma toggle_twice_AAA :
  let once := toggle_chart_visibility "AAA.AX" "#1" shown in
  let twice := toggle_chart_visibility "AAA.AX" "#1" once in
  line_visibility once !! "AAA.AX"
    = Some (negb (default true (line_visibility shown !! "AAA.AX"))) ∧
  line_visibility twice !! "AAA.AX"
    = Some (default true (line_visibility shown !! "AAA.AX")) ∧
  (∀ other, other ≠ "AAA.AX" →
     default true (line_visibility twice !! other)
     = default true (line_visibility shown !! other)).
Proof. apply (toggle_chart_visibility_twice (H:=float_Float64) "AAA.AX" shown). done. Defined.

(** The hidden line of AAA.AX stays hidden when the next batch comes in. *)
Lemma hidden_stays_hidden :
  line_visibility (handle hidden (FetchResult (Ok first_batch))) !! "AAA.AX"
  = Some false.
Proof.
  apply (visibility_choice_kept (H:=float_Float64) "AAA.AX" false hidden).
  - exact I.
  - vm_compute. reflexivity.
Defined.

Lemma color_matches_tag_full_answer :
  (color full_quote = "green" ∧ row_tag (Some (Fetched full_quote)) = "gain") ∨
  (color full_quote = "red" ∧ row_tag (Some (Fetched full_quote)) = "loss").
Proof.
  refine (color_matches_tag (H:=float_Float64) full_answer "30 Days" full_quote _).
  vm_compute. reflexivity.
Defined.


Lemma toggle_hides_AAA :
  let st' := toggle_chart_visibility "AAA.AX" "#1" shown in
  ("AAA.AX" ∉ plotted st') ∧
  (∀ other, other ≠ "AAA.AX" → other ∈ plotted st' ↔ other ∈ plotted shown).
Proof.
  apply (toggle_hides_line (H:=float_Float64) "AAA.AX" shown).
  - done.
  - by_compute.
Defined.

Lemma removed_AAA_still_plotted :
  ("AAA.AX" ∉ plotted hidden) ∧
  "AAA.AX" ∈ plotted (remove_stock (Some "AAA.AX") hidden).
Proof.
  split; [by_compute|].
  apply (removed_symbol_still_plotted (H:=float_Float64) "AAA.AX" full_quote hidden).
  - by_compute.
  - done.
  - vm_compute. reflexivity.
  - done.
Defined.

(** The scenario of a change from "30 Days" to "6 Hrs". *)
Lemma apply_settings_six_hours :
  let applied :=
    apply_settings (Settings "6 Hrs" "Australia/Sydney")
                   (Settings "30 Days" "Australia/Sydney") started in
  load_settings (disk applied.2) = Ok (Settings "6 Hrs" "Australia/Sydney") ∧
  submitted applied.2 = [("1d", "5m")].
Proof.
  destruct (apply_settings_spec (H:=float_Float64)
              (Settings "6 Hrs" "Australia/Sydney")
              (Settings "30 Days" "Australia/Sydney") started)
    as (_ & Hload & _ & Hsub & _).
  - split; by_compute.
  - split; [exact Hload|]. rewrite Hsub; [reflexivity|done|done].
Defined.

End MoreAppFacts.
